(** * Bike shop storefront: cart, session and pricing logic of [store.js]

    A shallow embedding of the storage functions ([getCart], [saveCart],
    [addToCart], [updateCartItem], [removeCartItem], [getCurrentUser],
    [setCurrentUser], [logOutUser], [subscribeEmail]) and of the pricing
    function [calculateCartTotals], followed by the properties of the
    storefront's specification that concern them.

    Modelling conventions.
    - JavaScript numbers that carry money are exact rationals ([Q],
      compared with [==]); quantities and array indices are integers
      ([Z]).  The module [Binary64] replays the worked example of the
      specification with hardware floats.
    - The total weight is accumulated in binary64 ([float]), as the code
      does: the weights of the catalog are not dyadic, and the rounding of
      their sum decides the shipping tier.  [binary64 q] is the value of
      the numeric literal written [q].
    - A JavaScript exception is the [Throw] case of [completion];
      [try_catch] is the [try { } catch (err) { }] statement.
    - [localStorage] holds, for each of the three keys, either nothing or a
      text.  A text is represented by what [JSON.parse] makes of it
      ([text]): the empty text, a text that is not JSON, or the JSON text of
      a value.  [JSON.stringify] followed by [JSON.parse] is the identity on
      the values stored here.
    - Arrays read back from the cart and subscriber records have elements
      of the shape the program writes ([CartLineItem], strings); arrays
      with elements of another shape are outside the model, every other
      JSON value is in it.
    - The DOM side of each function ([alert], [updateCartCount],
      [renderCart], [renderHeader]) does not touch [localStorage] and is
      left out, and [localStorage.setItem] is taken to succeed. *)

From Stdlib Require Import QArith ZArith String Ascii List Lia Lqa PrimFloat.
From stdpp Require Import base option list strings.

Set Warnings "-register-all,-inexact-float".

Local Open Scope Z_scope.

(* ------------------------------------------------------------------ *)
(** ** JavaScript values and completions *)

Inductive jserror := SyntaxError | TypeError.

Inductive completion (A : Type) :=
| Normal (a : A)
| Throw (e : jserror).
Arguments Normal {A} a.
Arguments Throw {A} e.

#[global] Instance completion_ret : MRet completion := fun A a => Normal a.
#[global] Instance completion_bind : MBind completion := fun A B k m =>
  match m with
  | Normal a => k a
  | Throw e => Throw e
  end.

(** [try { body } catch (err) { handler }] where both branches return. *)
Definition try_catch {A} (body : completion A) (handler : jserror -> A) : A :=
  match body with
  | Normal a => a
  | Throw err => handler err
  end.

Inductive json :=
| JNull
| JBool (b : bool)
| JNum (q : Q)
| JStr (s : string)
| JArr (items : list json)
| JObj (fields : list (string * json)).

(** ToBoolean on a JSON value: [null], [false], [0] and the empty string
    are falsy, arrays and objects are truthy. *)
Definition truthy (v : json) : bool :=
  match v with
  | JNull => false
  | JBool b => b
  | JNum q => negb (Qeq_bool q 0)
  | JStr s => negb (String.eqb s EmptyString)
  | JArr _ | JObj _ => true
  end.

(** What [JSON.parse] returns for a record that the program fills with an
    array of [A]: any JSON value, the arrays carrying typed elements. *)
Inductive parsed (A : Type) :=
| PNull
| PBool (b : bool)
| PNum (q : Q)
| PStr (s : string)
| PObj (fields : list (string * json))
| PList (l : list A).
Arguments PNull {A}.
Arguments PBool {A} b.
Arguments PNum {A} q.
Arguments PStr {A} s.
Arguments PObj {A} fields.
Arguments PList {A} l.

Definition Array_isArray {A} (v : parsed A) : bool :=
  match v with
  | PList _ => true
  | _ => false
  end.

Class Null (V : Type) := null : V.
#[global] Instance json_null : Null json := JNull.
#[global] Instance parsed_null {A} : Null (parsed A) := PNull.

(** A text kept in [localStorage], seen through [JSON.parse]. *)
Inductive text (V : Type) :=
| Empty                (* the empty string *)
| Malformed            (* a non-empty text that is not JSON *)
| Encoded (v : V).     (* the JSON text of [v] *)
Arguments Empty {V}.
Arguments Malformed {V}.
Arguments Encoded {V} v.

Definition JSON_stringify {V} (v : V) : text V := Encoded v.

(** [JSON.parse(x)] for [x] a string or [null]; [null] is first turned
    into the text [null]. *)
Definition JSON_parse {V} `{Null V} (x : option (text V)) : completion V :=
  match x with
  | None => Normal null
  | Some Empty | Some Malformed => Throw SyntaxError
  | Some (Encoded v) => Normal v
  end.

(** [x || d] for [x] a string or [null]. *)
Definition or_else {V} (x : option (text V)) (d : text V) : option (text V) :=
  match x with
  | None | Some Empty => Some d
  | Some _ => x
  end.

(* ------------------------------------------------------------------ *)
(** ** Data section *)

Module Product.
Record t := {
  id : string;
  name : string;
  category : string;
  price : Q;
  weight : Q;
  options : list (string * list string);
  description : string;
  image : string;
  sale : bool;
  popular : bool
}.
End Product.

Definition products : list Product.t := [
  {| Product.id := "m1"; Product.name := "Горный велосипед TrailX";
     Product.category := "mountain"; Product.price := 60000%Q;
     Product.weight := 10%Q;
     Product.options := [("colour", ["черный"; "красный"]); ("size", ["S"; "M"; "L"])];
     Product.description := "Надежный горный велосипед с амортизацией и прочной рамой.";
     Product.image := "images/mountain-bike.png";
     Product.sale := false; Product.popular := true |};
  {| Product.id := "m2"; Product.name := "Горный велосипед Peak 200";
     Product.category := "mountain"; Product.price := 45000%Q;
     Product.weight := 12%Q;
     Product.options := [("colour", ["синий"; "серый"]); ("size", ["M"; "L"])];
     Product.description := "Универсальный велосипед для бездорожья и города.";
     Product.image := "images/mountain-bike.png";
     Product.sale := true; Product.popular := false |};
  {| Product.id := "c1"; Product.name := "Городской велосипед UrbanGo";
     Product.category := "city"; Product.price := 30000%Q;
     Product.weight := 8%Q;
     Product.options := [("colour", ["белый"; "зеленый"]); ("size", ["M"; "L"])];
     Product.description := "Легкий и маневренный велосипед для городских поездок.";
     Product.image := "images/city-bike.png";
     Product.sale := false; Product.popular := true |};
  {| Product.id := "r1"; Product.name := "Гоночный велосипед Speedster";
     Product.category := "racing"; Product.price := 80000%Q;
     Product.weight := 7%Q;
     Product.options := [("colour", ["черный"; "белый"]); ("size", ["S"; "M"; "L"])];
     Product.description := "Максимальная скорость и минимальный вес для настоящих гонщиков.";
     Product.image := "images/racing-bike.png";
     Product.sale := false; Product.popular := false |};
  {| Product.id := "h1"; Product.name := "Гибридный велосипед Comet";
     Product.category := "hybrid"; Product.price := 35000%Q;
     Product.weight := 9%Q;
     Product.options := [("colour", ["серебристый"]); ("size", ["M"; "L"])];
     Product.description := "Совмещает преимущества дорожных и горных велосипедов.";
     Product.image := "images/hybrid-bike.png";
     Product.sale := false; Product.popular := false |};
  {| Product.id := "acc1"; Product.name := "Шлем для велосипеда";
     Product.category := "accessories"; Product.price := 5000%Q;
     Product.weight := 0.5%Q;
     Product.options := [("colour", ["черный"; "синий"]); ("size", ["M"; "L"])];
     Product.description := "Легкий и прочный шлем для вашей безопасности.";
     Product.image := "images/helmet.png";
     Product.sale := false; Product.popular := false |};
  {| Product.id := "acc2"; Product.name := "Велозамок";
     Product.category := "accessories"; Product.price := 1500%Q;
     Product.weight := 0.3%Q;
     Product.options := [("colour", ["черный"]); ("size", ["универсальный"])];
     Product.description := "Надежный замок для защиты вашего велосипеда.";
     Product.image := "images/lock.png";
     Product.sale := false; Product.popular := false |};
  {| Product.id := "foot1"; Product.name := "Велотуфли";
     Product.category := "footwear"; Product.price := 8000%Q;
     Product.weight := 0.8%Q;
     Product.options := [("size", ["38"; "39"; "40"; "41"; "42"])];
     Product.description := "Удобные туфли для профессиональной езды.";
     Product.image := "images/shoes.png";
     Product.sale := true; Product.popular := false |};
  {| Product.id := "cloth1"; Product.name := "Джерси";
     Product.category := "clothing"; Product.price := 2500%Q;
     Product.weight := 0.2%Q;
     Product.options := [("size", ["S"; "M"; "L"]); ("colour", ["красный"; "синий"])];
     Product.description := "Дышащая велофутболка для комфорта во время поездок.";
     Product.image := "images/jersey.png";
     Product.sale := false; Product.popular := false |}
].

(** Shipping and discount rules. *)
Definition SHIPPING_FREE_THRESHOLD : Q := 7000.
Definition SHIPPING_SMALL_LIMIT : Q := 3.
Definition SHIPPING_MEDIUM_COST : Q := 300.
Definition SHIPPING_LARGE_COST : Q := 500.
Definition USER_DISCOUNT : Q := 0.02.
Definition SALE_DISCOUNT : Q := 0.05.
Definition COD_SURCHARGE : Q := 0.05.

(** A cart line item [{ productId, quantity, options }]; [options] lists
    the own properties of the options object in enumeration order. *)
Record CartLineItem := {
  productId : string;
  quantity : Z;
  options : list (string * string)
}.

(** The user object [{ email, name }] written by the login flow. *)
Record User := { email : string; name : string }.

Definition User_json (u : User) : json :=
  JObj [("email"%string, JStr (email u)); ("name"%string, JStr (name u))].

(** Keys for localStorage. *)
Inductive key := CART_KEY | USER_KEY | SUBSCRIBERS_KEY.

Definition slot (k : key) : Type :=
  match k with
  | CART_KEY => parsed CartLineItem
  | USER_KEY => json
  | SUBSCRIBERS_KEY => parsed string
  end.

Record localStorage := {
  bike_shop_cart : option (text (parsed CartLineItem));
  bike_shop_user : option (text json);
  bike_shop_subscribers : option (text (parsed string))
}.

Definition getItem (k : key) (st : localStorage) : option (text (slot k)) :=
  match k with
  | CART_KEY => bike_shop_cart st
  | USER_KEY => bike_shop_user st
  | SUBSCRIBERS_KEY => bike_shop_subscribers st
  end.

Definition put (k : key) (x : option (text (slot k))) (st : localStorage)
  : localStorage :=
  match k return option (text (slot k)) -> localStorage with
  | CART_KEY => fun x =>
      {| bike_shop_cart := x; bike_shop_user := bike_shop_user st;
         bike_shop_subscribers := bike_shop_subscribers st |}
  | USER_KEY => fun x =>
      {| bike_shop_cart := bike_shop_cart st; bike_shop_user := x;
         bike_shop_subscribers := bike_shop_subscribers st |}
  | SUBSCRIBERS_KEY => fun x =>
      {| bike_shop_cart := bike_shop_cart st; bike_shop_user := bike_shop_user st;
         bike_shop_subscribers := x |}
  end x.

Definition setItem (k : key) (t : text (slot k)) (st : localStorage) : localStorage :=
  put k (Some t) st.

Definition removeItem (k : key) (st : localStorage) : localStorage :=
  put k None st.

(* ------------------------------------------------------------------ *)
(** ** [JSON.stringify] on an options object

    [addToCart] compares the JSON texts of two options objects, so these
    texts are spelled out: QuoteJSONString and SerializeJSONObject of
    ECMA-262, for an object whose property values are strings. *)

Definition dquote : ascii := "034"%char.
Definition backslash : ascii := "092"%char.

Definition hexDigit (n : N) : ascii :=
  ascii_of_N (if (n <? 10)%N then 48 + n else 87 + n).

(** One code unit inside a quoted JSON string. *)
Definition escape (c : ascii) : string :=
  let n := N_of_ascii c in
  if (n =? 8)%N then String backslash "b"
  else if (n =? 9)%N then String backslash "t"
  else if (n =? 10)%N then String backslash "n"
  else if (n =? 12)%N then String backslash "f"
  else if (n =? 13)%N then String backslash "r"
  else if (n =? 34)%N then String backslash (String dquote EmptyString)
  else if (n =? 92)%N then String backslash (String backslash EmptyString)
  else if (n <? 32)%N then
    String backslash
      ("u00" +:+ String (hexDigit (n / 16)) (String (hexDigit (n mod 16)) EmptyString))
  else String c EmptyString.

Fixpoint escapeAll (s : string) : string :=
  match s with
  | EmptyString => EmptyString
  | String c rest => escape c +:+ escapeAll rest
  end.

Definition QuoteJSONString (s : string) : string :=
  String dquote (escapeAll s +:+ String dquote EmptyString).

Definition member (kv : string * string) : string :=
  QuoteJSONString kv.1 +:+ ":" +:+ QuoteJSONString kv.2.

Fixpoint members (o : list (string * string)) : string :=
  match o with
  | [] => EmptyString
  | [kv] => member kv
  | kv :: rest => member kv +:+ "," +:+ members rest
  end.

Definition JSON_stringify_object (o : list (string * string)) : string :=
  "{" +:+ members o +:+ "}".

(** Reading back one escaped code unit; used to show that the texts above
    determine the object. *)
Definition unhex (c : ascii) : option N :=
  let n := N_of_ascii c in
  if (48 <=? n)%N && (n <=? 57)%N then Some (n - 48)%N
  else if (97 <=? n)%N && (n <=? 102)%N then Some (n - 87)%N
  else None.

Definition unescape (s : string) : option (ascii * string) :=
  match s with
  | EmptyString => None
  | String c rest =>
      if Ascii.eqb c dquote then None
      else if Ascii.eqb c backslash then
        match rest with
        | EmptyString => None
        | String e rest' =>
            if Ascii.eqb e "b" then Some ("008"%char, rest')
            else if Ascii.eqb e "t" then Some ("009"%char, rest')
            else if Ascii.eqb e "n" then Some ("010"%char, rest')
            else if Ascii.eqb e "f" then Some ("012"%char, rest')
            else if Ascii.eqb e "r" then Some ("013"%char, rest')
            else if Ascii.eqb e dquote then Some (dquote, rest')
            else if Ascii.eqb e backslash then Some (backslash, rest')
            else if Ascii.eqb e "u" then
              match rest' with
              | String _ (String _ (String h (String l rest''))) =>
                  match unhex h, unhex l with
                  | Some hi, Some lo => Some (ascii_of_N (16 * hi + lo), rest'')
                  | _, _ => None
                  end
              | _ => None
              end
            else None
        end
      else Some (c, rest)
  end.

(* ------------------------------------------------------------------ *)
(** ** Storage functions *)

Definition getCart (st : localStorage) : list CartLineItem :=
  try_catch
    (cart ← JSON_parse (getItem CART_KEY st);
     mret (if Array_isArray cart
           then match cart with PList l => l | _ => [] end
           else []))
    (fun err => []).

Definition saveCart (cart : list CartLineItem) (st : localStorage) : localStorage :=
  setItem CART_KEY (JSON_stringify (PList cart)) st.

(** The predicate handed to [cart.find] by [addToCart]. *)
Definition sameLine (productId' : string) (options' : list (string * string))
    (item : CartLineItem) : Prop :=
  productId item = productId' /\
  JSON_stringify_object (options item) = JSON_stringify_object options'.

#[global] Instance sameLine_dec productId' options' item :
  Decision (sameLine productId' options' item).
Proof. unfold sameLine. apply _. Defined.

Definition addQuantity (n : Z) (item : CartLineItem) : CartLineItem :=
  {| productId := productId item; quantity := quantity item + n;
     options := options item |}.

Definition setQuantity (n : Z) (item : CartLineItem) : CartLineItem :=
  {| productId := productId item; quantity := n; options := options item |}.

(** [cart.find] yields a reference into the array, so the increment is an
    update at the index of the first match.  A caller that leaves out
    [quantity] or [options] gets the defaults [1] and [{}], that is
    [addToCart id 1 []]. *)
Definition addToCart (productId' : string) (quantity' : Z)
    (options' : list (string * string)) (st : localStorage) : localStorage :=
  let cart := getCart st in
  let cart :=
    match list_find (sameLine productId' options') cart with
    | Some (i, existing) => alter (addQuantity quantity') i cart
    | None =>
        cart ++ [{| productId := productId'; quantity := quantity';
                    options := options' |}]
    end in
  saveCart cart st.

(** [Array.prototype.splice(start, deleteCount)] without inserted items:
    a negative [start] counts from the end, and both arguments are clamped
    to the array. *)
Definition splice {A} (start deleteCount : Z) (l : list A) : list A :=
  let len := Z.of_nat (length l) in
  let actualStart :=
    if start <? 0 then Z.max (len + start) 0 else Z.min start len in
  let actualDeleteCount := Z.min (Z.max deleteCount 0) (len - actualStart) in
  take (Z.to_nat actualStart) l ++
  drop (Z.to_nat (actualStart + actualDeleteCount)) l.

Definition updateCartItem (index quantity' : Z) (st : localStorage) : localStorage :=
  let cart := getCart st in
  if (0 <=? index) && (index <? Z.of_nat (length cart)) then
    let cart := alter (setQuantity quantity') (Z.to_nat index) cart in
    let cart :=
      match cart !! Z.to_nat index with
      | Some item => if quantity item <=? 0 then splice index 1 cart else cart
      | None => cart
      end in
    saveCart cart st
  else st.

Definition removeCartItem (index : Z) (st : localStorage) : localStorage :=
  let cart := getCart st in
  let cart := splice index 1 cart in
  saveCart cart st.

Definition getCurrentUser (st : localStorage) : json :=
  try_catch
    (user ← JSON_parse (getItem USER_KEY st);
     mret (if truthy user then user else JNull))
    (fun err => JNull).

Definition setCurrentUser (user : User) (st : localStorage) : localStorage :=
  setItem USER_KEY (JSON_stringify (User_json user)) st.

Definition logOutUser (st : localStorage) : localStorage :=
  removeItem USER_KEY st.

(** [list.includes(email)]: a method of arrays and of strings only. *)
Definition includes (list : parsed string) (email : string) : completion bool :=
  match list with
  | PList l => Normal (bool_decide (email ∈ l))
  | PStr s =>
      Normal (match String.index 0 email s with Some _ => true | None => false end)
  | PNull | PBool _ | PNum _ | PObj _ => Throw TypeError
  end.

(** [list.push(email)]: a method of arrays only. *)
Definition push (list : parsed string) (email : string) : completion (parsed string) :=
  match list with
  | PList l => Normal (PList (l ++ [email]))
  | _ => Throw TypeError
  end.

Definition subscribeEmail (email : string) (st : localStorage)
  : completion localStorage :=
  list ← JSON_parse (or_else (getItem SUBSCRIBERS_KEY st) (Encoded (PList [])));
  if String.eqb email EmptyString then mret st
  else
    present ← includes list email;
    if negb present then
      list ← push list email;
      mret (setItem SUBSCRIBERS_KEY (JSON_stringify list) st)
    else mret st.

(* ------------------------------------------------------------------ *)
(** ** Helper functions and pricing, for a given product catalog *)

Record Totals := {
  subtotal : Q;
  shippingCost : Q;
  codSurcharge : Q;
  total : Q
}.

(** [a > b] on numbers. *)
Definition gtb (a b : Q) : bool := negb (Qle_bool a b).

(** Integers and decimal literals as binary64 numbers.  An integer below
    2^53 is represented exactly; a literal [n / 10^k] is the correctly
    rounded quotient of two such integers. *)
Fixpoint binary64_of_pos (p : positive) : float :=
  match p with
  | xH => 1%float
  | xO p => (2 * binary64_of_pos p)%float
  | xI p => (2 * binary64_of_pos p + 1)%float
  end.

Definition binary64_of_Z (z : Z) : float :=
  match z with
  | Z0 => 0%float
  | Zpos p => binary64_of_pos p
  | Zneg p => (- binary64_of_pos p)%float
  end.

Definition binary64 (q : Q) : float :=
  (binary64_of_Z (Qnum q) / binary64_of_pos (Qden q))%float.

(** [x === s] for a value [x] that is a string or absent. *)
Definition strictEq (x : option string) (s : string) : bool :=
  match x with
  | Some x => String.eqb x s
  | None => false
  end.

Section Pricing.
Variable catalog : list Product.t.

Definition findProduct (id : string) : option Product.t :=
  List.find (fun p => String.eqb (Product.id p) id) catalog.

(** One round of the [cart.forEach] callback on the two accumulators. *)
Definition accumulate (acc : Q * float) (item : CartLineItem) : Q * float :=
  let '(subtotal, totalWeight) := acc in
  match findProduct (productId item) with
  | Some product =>
      let itemPrice := Product.price product in
      let itemPrice :=
        if Product.sale product
        then (itemPrice * (1 - SALE_DISCOUNT))%Q else itemPrice in
      ((subtotal + itemPrice * inject_Z (quantity item))%Q,
       (totalWeight
        + binary64 (Product.weight product) * binary64_of_Z (quantity item))%float)
  | None => (subtotal, totalWeight)
  end.

(** The two accumulators after the [cart.forEach] loop. *)
Definition loop (st : localStorage) : Q * float :=
  fold_left accumulate (getCart st) (0%Q, 0%float).

Definition calculateCartTotals (selectedShipping selectedPayment : option string)
    (st : localStorage) : Totals :=
  let '(subtotal, totalWeight) := loop st in
  let user := getCurrentUser st in
  let subtotal :=
    if truthy user then (subtotal * (1 - USER_DISCOUNT))%Q else subtotal in
  let shippingCost :=
    if strictEq selectedShipping "delivery" then
      if gtb subtotal SHIPPING_FREE_THRESHOLD then 0%Q else SHIPPING_MEDIUM_COST
    else if strictEq selectedShipping "mail" then
      if PrimFloat.leb totalWeight (binary64 SHIPPING_SMALL_LIMIT)
      then SHIPPING_MEDIUM_COST else SHIPPING_LARGE_COST
    else 0%Q in
  let codSurcharge :=
    if strictEq selectedShipping "mail" && strictEq selectedPayment "cod"
    then (subtotal * COD_SURCHARGE)%Q else 0%Q in
  let total := (subtotal + shippingCost + codSurcharge)%Q in
  {| subtotal := subtotal; shippingCost := shippingCost;
     codSurcharge := codSurcharge; total := total |}.
End Pricing.

Definition emptyStorage : localStorage :=
  {| bike_shop_cart := None; bike_shop_user := None; bike_shop_subscribers := None |}.


(* ------------------------------------------------------------------ *)
(** ** The pricing rules as the specification words them

    These definitions follow the specification's text and are compared
    with [calculateCartTotals] below. *)

Definition Qsum (l : list Q) : Q := fold_right Qplus 0%Q l.

Definition Zsum (l : list Z) : Z := fold_right Z.add 0 l.

(** Per-unit price: 5% off for products flagged [sale]. *)
Definition unitPrice (p : Product.t) : Q :=
  if Product.sale p then (Product.price p * (1 - 0.05))%Q else Product.price p.

(** What one line item adds to the subtotal and to the weight; a line
    whose product is not in the catalog adds nothing. *)
Definition lineAmount (catalog : list Product.t) (item : CartLineItem) : Q :=
  match findProduct catalog (productId item) with
  | Some p => (unitPrice p * inject_Z (quantity item))%Q
  | None => 0%Q
  end.

Definition lineWeight (catalog : list Product.t) (item : CartLineItem) : Q :=
  match findProduct catalog (productId item) with
  | Some p => (Product.weight p * inject_Z (quantity item))%Q
  | None => 0%Q
  end.

(** Sale discount per item before aggregation, loyalty discount once on
    the aggregate. *)
Definition spec_subtotal (catalog : list Product.t) (cart : list CartLineItem)
    (userPresent : bool) : Q :=
  (Qsum (map (lineAmount catalog) cart) * (if userPresent then 1 - 0.02 else 1))%Q.

Definition spec_totalWeight (catalog : list Product.t) (cart : list CartLineItem) : Q :=
  Qsum (map (lineWeight catalog) cart).

(** A product with the given id, price, weight and sale flag, for worked
    examples whose prices the shop's catalog does not contain. *)
Definition sampleProduct (id : string) (price weight : Q) (sale : bool) : Product.t :=
  {| Product.id := id; Product.name := id; Product.category := "sample";
     Product.price := price; Product.weight := weight; Product.options := [];
     Product.description := EmptyString; Product.image := EmptyString;
     Product.sale := sale; Product.popular := false |}.

Definition oneUnit (id : string) : CartLineItem :=
  {| productId := id; quantity := 1; options := [] |}.

(** Worked examples of the specification: a sale item priced 1000; items
    priced 7001 and 7000 weighing 3 and 3.01 kg; an item priced 10000. *)
Definition saleCatalog : list Product.t := [sampleProduct "s1" 1000 1 true].

Definition tierCatalog : list Product.t :=
  [sampleProduct "a" 7001 3 false; sampleProduct "b" 7000 3.01 false;
   sampleProduct "c" 10000 1 false].

Definition cartOf (cart : list CartLineItem) : localStorage :=
  {| bike_shop_cart := Some (JSON_stringify (PList cart));
     bike_shop_user := None; bike_shop_subscribers := None |}.

Definition someUser : User := {| email := "rider@example.org"; name := "Rider" |}.

(** The arithmetic [calculateCartTotals] performs for a cart of one line
    whose product is on sale, replayed in binary64. *)
Module Binary64.
Definition saleLineSubtotal (price quantity : float) (userPresent : bool) : float :=
  let itemPrice := (price * (1 - 0.05))%float in
  let subtotal := (0 + itemPrice * quantity)%float in
  if userPresent then (subtotal * (1 - 0.02))%float else subtotal.
End Binary64.

(** The subscriber list as [subscribeEmail] reads it: an absent or empty
    record counts as the empty list. *)
Definition subscriberList (st : localStorage) (l : list string) : Prop :=
  or_else (getItem SUBSCRIBERS_KEY st) (Encoded (PList [])) = Some (Encoded (PList l)).

(* ------------------------------------------------------------------ *)
(** ** Categories, header badge and the data behind the pages

    The rendering functions build HTML; what is modelled of them is the
    data they compute from the catalog and the store. *)

Module Category.
Record t := {
  id : string;
  name : string;
  parent : option string       (* [null] for a top-level category *)
}.
End Category.

Definition categories : list Category.t := [
  {| Category.id := "bicycles"; Category.name := "Велосипеды"; Category.parent := None |};
  {| Category.id := "mountain"; Category.name := "Горные"; Category.parent := Some "bicycles" |};
  {| Category.id := "city"; Category.name := "Городские"; Category.parent := Some "bicycles" |};
  {| Category.id := "racing"; Category.name := "Гоночные"; Category.parent := Some "bicycles" |};
  {| Category.id := "hybrid"; Category.name := "Гибридные"; Category.parent := Some "bicycles" |};
  {| Category.id := "clothing"; Category.name := "Одежда"; Category.parent := None |};
  {| Category.id := "accessories"; Category.name := "Аксессуары"; Category.parent := None |};
  {| Category.id := "footwear"; Category.name := "Обувь"; Category.parent := None |};
  {| Category.id := "equipment"; Category.name := "Снаряжение"; Category.parent := None |}
]%string.

Definition findCategory (cats : list Category.t) (id : string) : option Category.t :=
  List.find (fun cat => String.eqb (Category.id cat) id) cats.

Definition getProductsByCategory (catalog : list Product.t) (categoryId : string)
  : list Product.t :=
  List.filter (fun p => String.eqb (Product.category p) categoryId) catalog.

(** [updateCartCount]: the number written into the [cartCount] badge. *)
Definition updateCartCount (st : localStorage) : Z :=
  fold_left (fun sum item => sum + quantity item) (getCart st) 0.

(** [renderCatalog], default view: one section per top-level category;
    the section of "bicycles" merges the products of its sub-categories. *)
Definition isTopLevel (c : Category.t) : bool :=
  match Category.parent c with
  | None => true
  | Some _ => false
  end.

Definition sectionProducts (cats : list Category.t) (catalog : list Product.t)
    (cat : Category.t) : list Product.t :=
  if String.eqb (Category.id cat) "bicycles" then
    let subCats :=
      map Category.id
        (List.filter (fun sc => strictEq (Category.parent sc) "bicycles") cats) in
    List.filter (fun p => bool_decide (Product.category p ∈ subCats)) catalog
  else
    List.filter (fun p => String.eqb (Product.category p) (Category.id cat)) catalog.

Definition catalogSections (cats : list Category.t) (catalog : list Product.t)
  : list (Category.t * list Product.t) :=
  map (fun cat => (cat, sectionProducts cats catalog cat)) (List.filter isTopLevel cats).

(** [renderCatalog], view of one category ([hash] names a category): the
    cards are [products.filter(p => p.category === hash)]. *)
Definition categoryViewItems (cats : list Category.t) (catalog : list Product.t)
    (hash : string) : option (list Product.t) :=
  if negb (String.eqb hash EmptyString) then
    match findCategory cats hash with
    | Some cat =>
        Some (List.filter (fun p => String.eqb (Product.category p) hash) catalog)
    | None => None
    end
  else None.

(** The price printed on a product card by [createProductCard]. *)
Definition createProductCard_price (product : Product.t) : Q :=
  if Product.sale product
  then (Product.price product * (1 - SALE_DISCOUNT))%Q
  else Product.price product.

(** [renderCart]: one table row per line whose product is in the catalog,
    carrying the line's index in the stored cart as [data-index]. *)
Record CartRow := {
  dataIndex : nat;
  rowProduct : Product.t;
  rowPrice : Q;
  rowQuantity : Z;
  rowTotal : Q
}.

Definition cartRow (catalog : list Product.t) (index : nat) (item : CartLineItem)
  : option CartRow :=
  match findProduct catalog (productId item) with
  | Some product =>
      let price := Product.price product in
      let price :=
        if Product.sale product then (price * (1 - SALE_DISCOUNT))%Q else price in
      let rowTotal := (price * inject_Z (quantity item))%Q in
      Some {| dataIndex := index; rowProduct := product; rowPrice := price;
              rowQuantity := quantity item; rowTotal := rowTotal |}
  | None => None
  end.

Definition cartRows (catalog : list Product.t) (st : localStorage) : list CartRow :=
  omap id (imap (cartRow catalog) (getCart st)).

(** The submit handler of the checkout form. *)
Definition checkoutForm_submit (st : localStorage) : localStorage :=
  saveCart [] st.

(** [showAuthModal], given the answers to its three prompts ([None] when
    a prompt is cancelled); entering and registering do the same. *)
Definition answered (x : option string) : bool :=
  match x with
  | Some s => negb (String.eqb s EmptyString)
  | None => false
  end.

Definition showAuthModal (action email' name' : option string) (st : localStorage)
  : localStorage :=
  if strictEq action "1" then
    match email', name' with
    | Some e, Some n =>
        if answered email' && answered name'
        then setCurrentUser {| email := e; name := n |} st
        else st
    | _, _ => st
    end
  else if strictEq action "2" then
    match email', name' with
    | Some e, Some n =>
        if answered email' && answered name'
        then setCurrentUser {| email := e; name := n |} st
        else st
    | _, _ => st
    end
  else st.

(** The click handler of the add-to-cart button on the product page,
    given what [parseInt] made of the quantity field ([None] for NaN) and
    the values of the colour and size selectors ([None] when the page has
    no such selector). *)
Definition addToCartBtn_click (product : Product.t) (parsedQty : option Z)
    (colourSelect sizeSelect : option string) (st : localStorage) : localStorage :=
  let qty :=
    match parsedQty with
    | Some n => if n =? 0 then 1 else n      (* [parseInt(...) || 1] *)
    | None => 1
    end in
  let options := [] in
  let options :=
    match colourSelect with
    | Some value => options ++ [("colour"%string, value)]
    | None => options
    end in
  let options :=
    match sizeSelect with
    | Some value => options ++ [("size"%string, value)]
    | None => options
    end in
  addToCart (Product.id product) qty options st.

(** A cart in which no two lines have the same product id and the same
    options in the same key order, and one in which every quantity is
    positive. *)
Definition lineKey (item : CartLineItem) : string * list (string * string) :=
  (productId item, options item).

Definition distinctLines (cart : list CartLineItem) : Prop :=
  NoDup (map lineKey cart).

Definition positiveQuantities (cart : list CartLineItem) : Prop :=
  Forall (fun item => 0 < quantity item) cart.

(* ------------------------------------------------------------------ *)
(** ** Reading back what was written *)

Lemma getCart_saveCart cart st : getCart (saveCart cart st) = cart.
Proof. reflexivity. Qed.

Lemma getCurrentUser_saveCart cart st :
  getCurrentUser (saveCart cart st) = getCurrentUser st.
Proof. reflexivity. Qed.

Lemma getCart_setCurrentUser u st : getCart (setCurrentUser u st) = getCart st.
Proof. reflexivity. Qed.

Lemma getCurrentUser_setCurrentUser u st :
  getCurrentUser (setCurrentUser u st) = User_json u.
Proof. reflexivity. Qed.

Lemma getCurrentUser_logOutUser st : getCurrentUser (logOutUser st) = JNull.
Proof. reflexivity. Qed.

(* ------------------------------------------------------------------ *)
(** ** Pricing *)

Section PricingFacts.
Variable catalog : list Product.t.

Lemma gtb_true a b : gtb a b = true <-> (b < a)%Q.
Proof.
  unfold gtb. rewrite negb_true_iff, <- not_true_iff_false, Qle_bool_iff.
  split; [apply Qnot_le_lt | apply Qlt_not_le].
Qed.

Lemma gtb_false a b : gtb a b = false <-> (a <= b)%Q.
Proof. unfold gtb. rewrite negb_false_iff. apply Qle_bool_iff. Qed.

Lemma Qle_bool_false a b : Qle_bool a b = false <-> (b < a)%Q.
Proof.
  rewrite <- not_true_iff_false, Qle_bool_iff.
  split; [apply Qnot_le_lt | apply Qlt_not_le].
Qed.

Lemma strictEq_true x s : strictEq x s = true <-> x = Some s.
Proof.
  destruct x as [x|]; simpl; [rewrite String.eqb_eq|]; split; congruence.
Qed.

Lemma strictEq_false x s : strictEq x s = false <-> x <> Some s.
Proof. rewrite <- strictEq_true. symmetry. apply not_true_iff_false. Qed.

(** The loop of [calculateCartTotals] adds up [lineAmount], and the
    weights in binary64. *)
Lemma accumulate_step s w item :
  accumulate catalog (s, w) item =
  match findProduct catalog (productId item) with
  | Some p => ((s + unitPrice p * inject_Z (quantity item))%Q,
               (w + binary64 (Product.weight p) * binary64_of_Z (quantity item))%float)
  | None => (s, w)
  end.
Proof.
  unfold accumulate, unitPrice.
  destruct (findProduct catalog (productId item)) as [p|]; reflexivity.
Qed.

Lemma Qsum_cons x l : Qsum (x :: l) = (x + Qsum l)%Q.
Proof. reflexivity. Qed.

Lemma fold_accumulate cart : forall s w,
  ((fold_left (accumulate catalog) cart (s, w)).1
     == s + Qsum (map (lineAmount catalog) cart))%Q.
Proof.
  induction cart as [|item cart IH]; intros s w.
  - simpl. ring.
  - cbn [fold_left map]. rewrite !Qsum_cons, accumulate_step.
    unfold lineAmount at 1.
    destruct (findProduct catalog (productId item)) as [p|].
    + rewrite IH. ring.
    + rewrite IH. ring.
Qed.

(** The four fields of the result, in terms of the loop's outcome. *)
Lemma subtotal_unfold ship pay st :
  subtotal (calculateCartTotals catalog ship pay st) =
  if truthy (getCurrentUser st)
  then ((loop catalog st).1 * (1 - USER_DISCOUNT))%Q else (loop catalog st).1.
Proof.
  unfold calculateCartTotals. destruct (loop catalog st) as [s w]. reflexivity.
Qed.

Lemma shippingCost_unfold ship pay st :
  shippingCost (calculateCartTotals catalog ship pay st) =
  if strictEq ship "delivery" then
    if gtb (subtotal (calculateCartTotals catalog ship pay st))
           SHIPPING_FREE_THRESHOLD
    then 0%Q else SHIPPING_MEDIUM_COST
  else if strictEq ship "mail" then
    if PrimFloat.leb (loop catalog st).2 (binary64 SHIPPING_SMALL_LIMIT)
    then SHIPPING_MEDIUM_COST else SHIPPING_LARGE_COST
  else 0%Q.
Proof.
  unfold calculateCartTotals. destruct (loop catalog st) as [s w]. reflexivity.
Qed.

Lemma codSurcharge_unfold ship pay st :
  codSurcharge (calculateCartTotals catalog ship pay st) =
  if strictEq ship "mail" && strictEq pay "cod"
  then (subtotal (calculateCartTotals catalog ship pay st) * COD_SURCHARGE)%Q
  else 0%Q.
Proof.
  unfold calculateCartTotals. destruct (loop catalog st) as [s w]. reflexivity.
Qed.

Lemma total_unfold ship pay st :
  total (calculateCartTotals catalog ship pay st) =
  (subtotal (calculateCartTotals catalog ship pay st)
   + shippingCost (calculateCartTotals catalog ship pay st)
   + codSurcharge (calculateCartTotals catalog ship pay st))%Q.
Proof.
  unfold calculateCartTotals. destruct (loop catalog st) as [s w]. reflexivity.
Qed.

Lemma loop_amount st :
  ((loop catalog st).1 == Qsum (map (lineAmount catalog) (getCart st)))%Q.
Proof. unfold loop. rewrite fold_accumulate. ring. Qed.

Lemma subtotal_spec ship pay st :
  (subtotal (calculateCartTotals catalog ship pay st)
     == spec_subtotal catalog (getCart st) (truthy (getCurrentUser st)))%Q.
Proof.
  rewrite subtotal_unfold. unfold spec_subtotal, USER_DISCOUNT.
  destruct (truthy (getCurrentUser st)); rewrite loop_amount; ring.
Qed.
End PricingFacts.

(** C1. Discounts compose multiplicatively.  For every catalog and every
    state of the store, the subtotal computed by [calculateCartTotals] is
    the sum over the cart's lines of the per-unit price times the quantity,
    the per-unit price being [price * (1 - 0.05)] for a product on sale and
    [price] otherwise, and this sum is multiplied once by [1 - 0.02] when a
    user is logged in; so one unit of a sale item priced 1000 with a user
    logged in gives 931 and not [1000 * 0.93]. *)
Theorem calculateCartTotals_discounts_compose
    (catalog : list Product.t) (ship pay : option string) (st : localStorage) :
  (subtotal (calculateCartTotals catalog ship pay st)
     == spec_subtotal catalog (getCart st) (truthy (getCurrentUser st)))%Q /\
  (forall pid opts p,
     getCart st = [{| productId := pid; quantity := 1; options := opts |}] ->
     findProduct catalog pid = Some p ->
     Product.sale p = true ->
     (Product.price p == 1000)%Q ->
     truthy (getCurrentUser st) = true ->
     (subtotal (calculateCartTotals catalog ship pay st) == 931)%Q /\
     ~ (subtotal (calculateCartTotals catalog ship pay st) == 1000 * 0.93)%Q).
Proof.
  split; [apply subtotal_spec|].
  intros pid opts p Hcart Hfind Hsale Hprice Huser.
  assert (Hsub : (subtotal (calculateCartTotals catalog ship pay st)
                    == 1000 * (1 - 0.05) * (1 - 0.02))%Q).
  { rewrite subtotal_spec, Hcart, Huser. unfold spec_subtotal. cbn [map].
    rewrite Qsum_cons. unfold lineAmount. cbn [productId quantity].
    rewrite Hfind. unfold unitPrice. rewrite Hsale, Hprice.
    vm_compute. reflexivity. }
  rewrite Hsub. clear. split; [|intros H; revert H]; vm_compute; congruence.
Qed.

(** The worked example is exact in binary64 as well. *)
Lemma Binary64_stacking_example :
  Binary64.saleLineSubtotal 1000 1 true = 931%float.
Proof. vm_compute. reflexivity. Qed.

Lemma calculateCartTotals_discounts_compose_witness :
  (subtotal (calculateCartTotals saleCatalog None None
               (setCurrentUser someUser (cartOf [oneUnit "s1"]))) == 931)%Q /\
  ~ (subtotal (calculateCartTotals saleCatalog None None
                 (setCurrentUser someUser (cartOf [oneUnit "s1"])))
       == 1000 * 0.93)%Q.
Proof.
  apply (proj2 (calculateCartTotals_discounts_compose saleCatalog None None
                  (setCurrentUser someUser (cartOf [oneUnit "s1"])))
           "s1"%string [] (sampleProduct "s1" 1000 1 true));
    reflexivity.
Defined.

(** Shipping cost by method: with "delivery", 0 when the discounted
    subtotal is strictly greater than 7000 and 300 otherwise; with "mail",
    300 when the weight accumulated by the loop is at most 3 and 500
    otherwise; with any other method, or none, 0. *)
Lemma shippingCost_tiers
    (catalog : list Product.t) (ship pay : option string) (st : localStorage) :
  (ship = Some "delivery"%string ->
     ((7000 < subtotal (calculateCartTotals catalog ship pay st))%Q ->
        shippingCost (calculateCartTotals catalog ship pay st) = 0%Q) /\
     ((subtotal (calculateCartTotals catalog ship pay st) <= 7000)%Q ->
        shippingCost (calculateCartTotals catalog ship pay st) = 300%Q)) /\
  (ship = Some "mail"%string ->
     (PrimFloat.leb (loop catalog st).2 3 = true ->
        shippingCost (calculateCartTotals catalog ship pay st) = 300%Q) /\
     (PrimFloat.leb (loop catalog st).2 3 = false ->
        shippingCost (calculateCartTotals catalog ship pay st) = 500%Q)) /\
  (ship <> Some "delivery"%string -> ship <> Some "mail"%string ->
     shippingCost (calculateCartTotals catalog ship pay st) = 0%Q).
Proof.
  rewrite shippingCost_unfold.
  unfold SHIPPING_FREE_THRESHOLD, SHIPPING_MEDIUM_COST, SHIPPING_LARGE_COST.
  replace (binary64 SHIPPING_SMALL_LIMIT) with 3%float by reflexivity.
  split; [|split].
  - intros ->. cbn [strictEq]. rewrite String.eqb_refl.
    split; intros H.
    + apply gtb_true in H. rewrite H. reflexivity.
    + apply gtb_false in H. rewrite H. reflexivity.
  - intros ->. cbn [strictEq].
    replace ("mail" =? "delivery")%string with false by reflexivity.
    rewrite String.eqb_refl.
    split; intros H; rewrite H; reflexivity.
  - intros Hd Hm.
    apply strictEq_false in Hd. apply strictEq_false in Hm.
    rewrite Hd, Hm. reflexivity.
Qed.

(** The tier examples of the specification, on single-line carts: subtotal
    7001 and 7000 with "delivery", weight 3 and 3.01 with "mail", and no
    method. *)
Lemma shippingCost_tier_examples :
  shippingCost (calculateCartTotals tierCatalog (Some "delivery"%string) None
                  (cartOf [oneUnit "a"])) = 0%Q /\
  shippingCost (calculateCartTotals tierCatalog (Some "delivery"%string) None
                  (cartOf [oneUnit "b"])) = 300%Q /\
  shippingCost (calculateCartTotals tierCatalog (Some "mail"%string) None
                  (cartOf [oneUnit "a"])) = 300%Q /\
  shippingCost (calculateCartTotals tierCatalog (Some "mail"%string) None
                  (cartOf [oneUnit "b"])) = 500%Q /\
  shippingCost (calculateCartTotals tierCatalog None None
                  (cartOf [oneUnit "a"])) = 0%Q.
Proof. split; [|split; [|split; [|split]]]; vm_compute; reflexivity. Qed.

(** C2. Shipping cost of a cart of exactly 3 kg sent by mail.  Two locks
    (0.3 kg each) and three pairs of shoes (0.8 kg each) weigh exactly
    3 kg, for which the claim, like the comment on [SHIPPING_SMALL_LIMIT],
    gives 300.  The loop adds the weights in binary64 and arrives at
    3.0000000000000004, above the limit, so [calculateCartTotals]
    returns 500. *)
Theorem calculateCartTotals_mail_three_kg_cart :
  (spec_totalWeight products
     [setQuantity 2 (oneUnit "acc2"); setQuantity 3 (oneUnit "foot1")] == 3)%Q /\
  (loop products
     (cartOf [setQuantity 2 (oneUnit "acc2"); setQuantity 3 (oneUnit "foot1")])).2
  = 3.0000000000000004%float /\
  PrimFloat.leb
    (loop products
       (cartOf [setQuantity 2 (oneUnit "acc2"); setQuantity 3 (oneUnit "foot1")])).2
    3 = false /\
  shippingCost
    (calculateCartTotals products (Some "mail"%string) None
       (cartOf [setQuantity 2 (oneUnit "acc2"); setQuantity 3 (oneUnit "foot1")]))
  = 500%Q.
Proof.
  split; [vm_compute; reflexivity|].
  split; [vm_compute; reflexivity|].
  split; vm_compute; reflexivity.
Qed.

(** C3. Cash-on-delivery surcharge and total.  The surcharge is
    [subtotal * 0.05] when the shipping method is "mail" and the payment
    method is "cod", and 0 for every other combination; the total is the
    sum of subtotal, shipping cost and surcharge. *)
Theorem calculateCartTotals_codSurcharge
    (catalog : list Product.t) (ship pay : option string) (st : localStorage) :
  (ship = Some "mail"%string -> pay = Some "cod"%string ->
     codSurcharge (calculateCartTotals catalog ship pay st)
     = (subtotal (calculateCartTotals catalog ship pay st) * 0.05)%Q) /\
  (~ (ship = Some "mail"%string /\ pay = Some "cod"%string) ->
     codSurcharge (calculateCartTotals catalog ship pay st) = 0%Q) /\
  total (calculateCartTotals catalog ship pay st)
  = (subtotal (calculateCartTotals catalog ship pay st)
     + shippingCost (calculateCartTotals catalog ship pay st)
     + codSurcharge (calculateCartTotals catalog ship pay st))%Q.
Proof.
  split; [|split].
  - intros -> ->. rewrite codSurcharge_unfold. reflexivity.
  - intros Hnot. rewrite codSurcharge_unfold.
    destruct (strictEq ship "mail") eqn:Hs; [|reflexivity].
    destruct (strictEq pay "cod") eqn:Hp; [|reflexivity].
    apply strictEq_true in Hs. apply strictEq_true in Hp.
    exfalso. apply Hnot. split; assumption.
  - apply total_unfold.
Qed.

Lemma calculateCartTotals_codSurcharge_witness :
  (codSurcharge (calculateCartTotals tierCatalog (Some "mail"%string)
                   (Some "cod"%string) (cartOf [oneUnit "c"])) == 500)%Q /\
  codSurcharge (calculateCartTotals tierCatalog (Some "delivery"%string)
                  (Some "cod"%string) (cartOf [oneUnit "c"])) = 0%Q.
Proof.
  split.
  - rewrite (proj1 (calculateCartTotals_codSurcharge tierCatalog
                      (Some "mail"%string) (Some "cod"%string)
                      (cartOf [oneUnit "c"])) eq_refl eq_refl).
    vm_compute. reflexivity.
  - apply (proj1 (proj2 (calculateCartTotals_codSurcharge tierCatalog
             (Some "delivery"%string) (Some "cod"%string) (cartOf [oneUnit "c"])))).
    intros [H _]. discriminate H.
Defined.

(** Non-negative catalog data and cart quantities. *)
Lemma findProduct_In catalog id p : findProduct catalog id = Some p -> In p catalog.
Proof. intros H. apply List.find_some in H. tauto. Qed.

Lemma inject_Z_nonneg z : 0 <= z -> (0 <= inject_Z z)%Q.
Proof. intros H. unfold Qle. simpl. lia. Qed.

Lemma unitPrice_nonneg p : (0 <= Product.price p)%Q -> (0 <= unitPrice p)%Q.
Proof.
  intros H. unfold unitPrice. destruct (Product.sale p); [|assumption].
  apply Qmult_le_0_compat; [assumption | vm_compute; discriminate].
Qed.

Lemma Qsum_nonneg l : List.Forall (fun x => (0 <= x)%Q) l -> (0 <= Qsum l)%Q.
Proof.
  induction 1 as [|x l Hx _ IH]; simpl.
  - apply Qle_refl.
  - replace 0%Q with (0 + 0)%Q by reflexivity. apply Qplus_le_compat; assumption.
Qed.

Section Nonnegative.
Variable catalog : list Product.t.
Hypothesis catalog_nonneg :
  List.Forall (fun p => (0 <= Product.price p)%Q /\ (0 <= Product.weight p)%Q) catalog.

Lemma lineAmount_nonneg item : 0 <= quantity item -> (0 <= lineAmount catalog item)%Q.
Proof.
  intros Hq. unfold lineAmount.
  destruct (findProduct catalog (productId item)) as [p|] eqn:Hp; [|apply Qle_refl].
  apply findProduct_In in Hp.
  rewrite List.Forall_forall in catalog_nonneg.
  apply Qmult_le_0_compat;
    [apply unitPrice_nonneg, (catalog_nonneg p Hp) | apply inject_Z_nonneg, Hq].
Qed.

Lemma lineWeight_nonneg item : 0 <= quantity item -> (0 <= lineWeight catalog item)%Q.
Proof.
  intros Hq. unfold lineWeight.
  destruct (findProduct catalog (productId item)) as [p|] eqn:Hp; [|apply Qle_refl].
  apply findProduct_In in Hp.
  rewrite List.Forall_forall in catalog_nonneg.
  apply Qmult_le_0_compat;
    [apply (catalog_nonneg p Hp) | apply inject_Z_nonneg, Hq].
Qed.

Lemma subtotal_nonneg ship pay st :
  List.Forall (fun item => 0 <= quantity item) (getCart st) ->
  (0 <= subtotal (calculateCartTotals catalog ship pay st))%Q.
Proof.
  intros Hcart. rewrite subtotal_spec. unfold spec_subtotal.
  apply Qmult_le_0_compat.
  - apply Qsum_nonneg. rewrite List.Forall_map.
    eapply List.Forall_impl; [|exact Hcart].
    intros item. apply lineAmount_nonneg.
  - destruct (truthy (getCurrentUser st)); vm_compute; discriminate.
Qed.

Lemma shippingCost_nonneg ship pay st :
  (0 <= shippingCost (calculateCartTotals catalog ship pay st))%Q.
Proof.
  rewrite shippingCost_unfold.
  repeat match goal with |- context [if ?b then _ else _] => destruct b end;
    vm_compute; discriminate.
Qed.

Lemma codSurcharge_nonneg ship pay st :
  List.Forall (fun item => 0 <= quantity item) (getCart st) ->
  (0 <= codSurcharge (calculateCartTotals catalog ship pay st))%Q.
Proof.
  intros Hcart. rewrite codSurcharge_unfold.
  destruct (_ && _); [|apply Qle_refl].
  apply Qmult_le_0_compat;
    [apply subtotal_nonneg, Hcart | vm_compute; discriminate].
Qed.
End Nonnegative.

Lemma products_nonneg :
  List.Forall (fun p => (0 <= Product.price p)%Q /\ (0 <= Product.weight p)%Q) products.
Proof. repeat constructor; vm_compute; discriminate. Qed.

(** C10. Non-negative totals.  When the catalog's prices and weights are
    non-negative, as they are in the shop's catalog, and every line of the
    cart has a non-negative quantity, then subtotal, shipping cost,
    surcharge and total are all non-negative, whatever the shipping method,
    the payment method and the user record. *)
Theorem calculateCartTotals_nonneg
    (catalog : list Product.t) (ship pay : option string) (st : localStorage) :
  List.Forall (fun p => (0 <= Product.price p)%Q /\ (0 <= Product.weight p)%Q) catalog ->
  List.Forall (fun item => 0 <= quantity item) (getCart st) ->
  (0 <= subtotal (calculateCartTotals catalog ship pay st))%Q /\
  (0 <= shippingCost (calculateCartTotals catalog ship pay st))%Q /\
  (0 <= codSurcharge (calculateCartTotals catalog ship pay st))%Q /\
  (0 <= total (calculateCartTotals catalog ship pay st))%Q.
Proof.
  intros Hcat Hcart.
  pose proof (subtotal_nonneg catalog Hcat ship pay st Hcart) as Hs.
  pose proof (shippingCost_nonneg catalog ship pay st) as Hc.
  pose proof (codSurcharge_nonneg catalog Hcat ship pay st Hcart) as Hd.
  split; [exact Hs|]. split; [exact Hc|]. split; [exact Hd|].
  rewrite total_unfold.
  replace 0%Q with (0 + 0 + 0)%Q by reflexivity.
  repeat apply Qplus_le_compat; assumption.
Qed.

Lemma calculateCartTotals_nonneg_witness :
  (0 <= subtotal (calculateCartTotals products (Some "mail"%string)
                    (Some "cod"%string)
                    (setCurrentUser someUser
                       (cartOf [{| productId := "foot1"; quantity := 2;
                                   options := [("size", "41")]%string |};
                                {| productId := "gone"; quantity := 0;
                                   options := [] |}]))))%Q /\
  (0 <= shippingCost (calculateCartTotals products (Some "mail"%string)
                    (Some "cod"%string)
                    (setCurrentUser someUser
                       (cartOf [{| productId := "foot1"; quantity := 2;
                                   options := [("size", "41")]%string |};
                                {| productId := "gone"; quantity := 0;
                                   options := [] |}]))))%Q /\
  (0 <= codSurcharge (calculateCartTotals products (Some "mail"%string)
                    (Some "cod"%string)
                    (setCurrentUser someUser
                       (cartOf [{| productId := "foot1"; quantity := 2;
                                   options := [("size", "41")]%string |};
                                {| productId := "gone"; quantity := 0;
                                   options := [] |}]))))%Q /\
  (0 <= total (calculateCartTotals products (Some "mail"%string)
                    (Some "cod"%string)
                    (setCurrentUser someUser
                       (cartOf [{| productId := "foot1"; quantity := 2;
                                   options := [("size", "41")]%string |};
                                {| productId := "gone"; quantity := 0;
                                   options := [] |}]))))%Q.
Proof.
  apply (calculateCartTotals_nonneg products).
  - repeat constructor; vm_compute; discriminate.
  - repeat constructor; vm_compute; discriminate.
Defined.

(* ------------------------------------------------------------------ *)
(** ** Cart state manager *)

(** [splice(start, 1)] by the position of [start]. *)
Lemma splice_in_range {A} (l : list A) (i : Z) :
  0 <= i < Z.of_nat (length l) -> splice i 1 l = delete (Z.to_nat i) l.
Proof.
  intros Hi. unfold splice.
  destruct (Z.ltb_spec i 0) as [Hneg|_]; [lia|].
  rewrite delete_take_drop.
  replace (Z.min i (Z.of_nat (length l))) with i by lia.
  replace (Z.min (Z.max 1 0) (Z.of_nat (length l) - i)) with 1 by lia.
  replace (Z.to_nat (i + 1)) with (S (Z.to_nat i)) by lia.
  reflexivity.
Qed.

Lemma splice_past_end {A} (l : list A) (i : Z) :
  Z.of_nat (length l) <= i -> splice i 1 l = l.
Proof.
  intros Hi. unfold splice.
  destruct (Z.ltb_spec i 0) as [Hneg|_]; [lia|].
  replace (Z.min i (Z.of_nat (length l))) with (Z.of_nat (length l)) by lia.
  replace (Z.min (Z.max 1 0) (Z.of_nat (length l) - Z.of_nat (length l)))
    with 0 by lia.
  rewrite Z.add_0_r, Nat2Z.id. apply take_drop.
Qed.

Lemma splice_from_end {A} (l : list A) (i : Z) :
  - Z.of_nat (length l) <= i < 0 ->
  splice i 1 l = delete (Z.to_nat (Z.of_nat (length l) + i)) l.
Proof.
  intros Hi. unfold splice.
  destruct (Z.ltb_spec i 0) as [_|Hpos]; [|lia].
  rewrite delete_take_drop.
  replace (Z.max (Z.of_nat (length l) + i) 0) with (Z.of_nat (length l) + i) by lia.
  replace (Z.min (Z.max 1 0) (Z.of_nat (length l) - (Z.of_nat (length l) + i)))
    with 1 by lia.
  replace (Z.to_nat (Z.of_nat (length l) + i + 1))
    with (S (Z.to_nat (Z.of_nat (length l) + i))) by lia.
  reflexivity.
Qed.

Lemma splice_before_start {A} (l : list A) (i : Z) :
  i < - Z.of_nat (length l) -> splice i 1 l = drop 1 l.
Proof.
  intros Hi. unfold splice.
  destruct (Z.ltb_spec i 0) as [_|Hpos]; [|lia].
  replace (Z.max (Z.of_nat (length l) + i) 0) with 0 by lia.
  destruct l as [|x l]; [reflexivity|].
  replace (Z.min (Z.max 1 0) (Z.of_nat (length (x :: l)) - 0)) with 1
    by (cbn [length]; lia).
  reflexivity.
Qed.

Lemma delete_alter_same {A} (f : A -> A) (l : list A) (i : nat) :
  delete i (alter f i l) = delete i l.
Proof.
  rewrite !delete_take_drop, take_alter_ge, drop_alter_lt by lia. reflexivity.
Qed.

(** C7. [getCart] tolerates every state of the cart record.  When the
    record is absent, is the empty text, is a text that is not JSON (the
    parse inside the [try] block throws), or is the JSON text of a value
    that is not a list, [getCart] returns the empty list; when it is the
    JSON text of a list of line items, [getCart] returns that list. *)
Theorem getCart_tolerates_record (st : localStorage) :
  (getItem CART_KEY st = None -> getCart st = []) /\
  (getItem CART_KEY st = Some Empty \/ getItem CART_KEY st = Some Malformed ->
     JSON_parse (getItem CART_KEY st) = Throw SyntaxError /\ getCart st = []) /\
  (forall v, getItem CART_KEY st = Some (Encoded v) ->
     Array_isArray v = false -> getCart st = []) /\
  (forall l, getItem CART_KEY st = Some (Encoded (PList l)) -> getCart st = l).
Proof.
  unfold getCart. repeat split.
  - intros ->. reflexivity.
  - destruct H as [-> | ->]; reflexivity.
  - destruct H as [-> | ->]; reflexivity.
  - intros v -> Hv. cbn. rewrite Hv. reflexivity.
  - intros l ->. reflexivity.
Qed.

Lemma getCart_tolerates_record_witness :
  getCart emptyStorage = [] /\
  getCart (put CART_KEY (Some Empty) emptyStorage) = [] /\
  getCart (put CART_KEY (Some Malformed) emptyStorage) = [] /\
  getCart (put CART_KEY (Some (Encoded (PObj [("productId"%string, JStr "m1")])))
             emptyStorage) = [] /\
  getCart (put CART_KEY (Some (Encoded PNull)) emptyStorage) = [] /\
  getCart (put CART_KEY (Some (Encoded (PList [oneUnit "m1"; oneUnit "c1"])))
             emptyStorage) = [oneUnit "m1"; oneUnit "c1"].
Proof.
  split; [|split; [|split; [|split; [|split]]]].
  - apply (proj1 (getCart_tolerates_record emptyStorage)). reflexivity.
  - apply (proj1 (proj2 (getCart_tolerates_record
             (put CART_KEY (Some Empty) emptyStorage)))).
    left. reflexivity.
  - apply (proj1 (proj2 (getCart_tolerates_record
             (put CART_KEY (Some Malformed) emptyStorage)))).
    right. reflexivity.
  - apply (proj1 (proj2 (proj2 (getCart_tolerates_record
             (put CART_KEY
                (Some (Encoded (PObj [("productId"%string, JStr "m1")])))
                emptyStorage))))
             (PObj [("productId"%string, JStr "m1")])); reflexivity.
  - apply (proj1 (proj2 (proj2 (getCart_tolerates_record
             (put CART_KEY (Some (Encoded PNull)) emptyStorage))))
             PNull); reflexivity.
  - apply (proj2 (proj2 (proj2 (getCart_tolerates_record
             (put CART_KEY (Some (Encoded (PList [oneUnit "m1"; oneUnit "c1"])))
                emptyStorage))))). reflexivity.
Defined.

(** C5. [updateCartItem].  For an index inside the cart, a positive
    quantity replaces the quantity of the line at that index and leaves
    every other line as it is, and a quantity of zero or less removes that
    line; for an index outside the cart the store is left as it is. *)
Theorem updateCartItem_spec (index quantity' : Z) (st : localStorage) :
  (0 <= index < Z.of_nat (length (getCart st)) -> 0 < quantity' ->
     getCart (updateCartItem index quantity' st)
     = alter (setQuantity quantity') (Z.to_nat index) (getCart st)) /\
  (0 <= index < Z.of_nat (length (getCart st)) -> quantity' <= 0 ->
     getCart (updateCartItem index quantity' st)
     = delete (Z.to_nat index) (getCart st)) /\
  (~ (0 <= index < Z.of_nat (length (getCart st))) ->
     updateCartItem index quantity' st = st).
Proof.
  unfold updateCartItem.
  destruct (Z.leb_spec 0 index) as [Hlo|Hlo];
    destruct (Z.ltb_spec index (Z.of_nat (length (getCart st)))) as [Hhi|Hhi];
    cbn [andb]; repeat split; try (intros; lia); try reflexivity.
  - intros _ Hq. rewrite getCart_saveCart, list_lookup_alter_eq.
    destruct (lookup_lt_is_Some_2 (getCart st) (Z.to_nat index)) as [item ->];
      [lia|].
    cbn [fmap option_fmap option_map setQuantity quantity].
    destruct (Z.leb_spec quantity' 0); [lia | reflexivity].
  - intros _ Hq. rewrite getCart_saveCart, list_lookup_alter_eq.
    destruct (lookup_lt_is_Some_2 (getCart st) (Z.to_nat index)) as [item ->];
      [lia|].
    cbn [fmap option_fmap option_map setQuantity quantity].
    destruct (Z.leb_spec quantity' 0); [|lia].
    rewrite splice_in_range by (rewrite length_alter; lia).
    apply delete_alter_same.
Qed.

Lemma updateCartItem_spec_witness :
  getCart (updateCartItem 1 4 (cartOf [oneUnit "m1"; oneUnit "c1"; oneUnit "r1"]))
  = [oneUnit "m1"; setQuantity 4 (oneUnit "c1"); oneUnit "r1"] /\
  getCart (updateCartItem 1 0 (cartOf [oneUnit "m1"; oneUnit "c1"; oneUnit "r1"]))
  = [oneUnit "m1"; oneUnit "r1"] /\
  updateCartItem 3 4 (cartOf [oneUnit "m1"; oneUnit "c1"; oneUnit "r1"])
  = cartOf [oneUnit "m1"; oneUnit "c1"; oneUnit "r1"] /\
  updateCartItem (-1) 0 (cartOf [oneUnit "m1"; oneUnit "c1"; oneUnit "r1"])
  = cartOf [oneUnit "m1"; oneUnit "c1"; oneUnit "r1"].
Proof.
  split; [|split; [|split]].
  - apply (proj1 (updateCartItem_spec 1 4
             (cartOf [oneUnit "m1"; oneUnit "c1"; oneUnit "r1"]))); simpl; lia.
  - apply (proj1 (proj2 (updateCartItem_spec 1 0
             (cartOf [oneUnit "m1"; oneUnit "c1"; oneUnit "r1"])))); simpl; lia.
  - apply (proj2 (proj2 (updateCartItem_spec 3 4
             (cartOf [oneUnit "m1"; oneUnit "c1"; oneUnit "r1"])))); simpl; lia.
  - apply (proj2 (proj2 (updateCartItem_spec (-1) 0
             (cartOf [oneUnit "m1"; oneUnit "c1"; oneUnit "r1"])))); simpl; lia.
Defined.

(** Outside the cart, [removeCartItem] differs from [updateCartItem]: it
    has no range check, so [splice] decides. *)
Lemma removeCartItem_in_range (index : Z) (st : localStorage) :
  0 <= index < Z.of_nat (length (getCart st)) ->
  getCart (removeCartItem index st) = delete (Z.to_nat index) (getCart st).
Proof. intros H. unfold removeCartItem. rewrite getCart_saveCart. apply splice_in_range, H. Qed.

Lemma removeCartItem_past_end (index : Z) (st : localStorage) :
  Z.of_nat (length (getCart st)) <= index ->
  getCart (removeCartItem index st) = getCart st.
Proof. intros H. unfold removeCartItem. rewrite getCart_saveCart. apply splice_past_end, H. Qed.

Lemma removeCartItem_from_end (index : Z) (st : localStorage) :
  - Z.of_nat (length (getCart st)) <= index < 0 ->
  getCart (removeCartItem index st)
  = delete (Z.to_nat (Z.of_nat (length (getCart st)) + index)) (getCart st).
Proof. intros H. unfold removeCartItem. rewrite getCart_saveCart. apply splice_from_end, H. Qed.

Lemma removeCartItem_before_start (index : Z) (st : localStorage) :
  index < - Z.of_nat (length (getCart st)) ->
  getCart (removeCartItem index st) = drop 1 (getCart st).
Proof. intros H. unfold removeCartItem. rewrite getCart_saveCart. apply splice_before_start, H. Qed.

(** C6. [removeCartItem] on a negative index.  On the cart of two lines
    (one TrailX, one UrbanGo), [removeCartItem(-1)] removes the last line
    and [removeCartItem(-5)] removes the first one, where [updateCartItem]
    with the same indices leaves the store as it is. *)
Theorem removeCartItem_negative_index_removes :
  getCart (removeCartItem (-1) (cartOf [oneUnit "m1"; oneUnit "c1"])) = [oneUnit "m1"] /\
  getCart (removeCartItem (-5) (cartOf [oneUnit "m1"; oneUnit "c1"])) = [oneUnit "c1"] /\
  updateCartItem (-1) 0 (cartOf [oneUnit "m1"; oneUnit "c1"])
  = cartOf [oneUnit "m1"; oneUnit "c1"].
Proof. split; [|split]; reflexivity. Qed.

(* ------------------------------------------------------------------ *)
(** ** The JSON text of an options object determines the object *)

Lemma append_nil (b : string) : EmptyString +:+ b = b.
Proof. reflexivity. Qed.

Lemma append_cons (x : ascii) (a b : string) : String x a +:+ b = String x (a +:+ b).
Proof. reflexivity. Qed.

Lemma append_assoc (a b c : string) : (a +:+ b) +:+ c = a +:+ (b +:+ c).
Proof.
  induction a as [|x a IH]; [reflexivity|].
  rewrite !append_cons, IH. reflexivity.
Qed.

Ltac flatten :=
  repeat first [rewrite append_assoc | rewrite append_cons | rewrite append_nil].
Ltac flatten_in H :=
  repeat first [rewrite append_assoc in H | rewrite append_cons in H
               | rewrite append_nil in H].

Lemma unescape_escape (c : ascii) (r : string) :
  unescape (escape c +:+ r) = Some (c, r).
Proof.
  destruct c as [b0 b1 b2 b3 b4 b5 b6 b7].
  destruct b0, b1, b2, b3, b4, b5, b6, b7; reflexivity.
Qed.

Lemma escapeAll_inj (s1 : string) : forall s2 r1 r2,
  escapeAll s1 +:+ String dquote r1 = escapeAll s2 +:+ String dquote r2 ->
  s1 = s2 /\ r1 = r2.
Proof.
  induction s1 as [|c1 s1 IH]; intros [|c2 s2] r1 r2 H; cbn [escapeAll] in H.
  - rewrite !append_nil in H. injection H as ->. split; reflexivity.
  - rewrite append_assoc, append_nil in H. apply (f_equal unescape) in H.
    rewrite unescape_escape in H. discriminate H.
  - rewrite append_assoc, append_nil in H. apply (f_equal unescape) in H.
    rewrite unescape_escape in H. discriminate H.
  - rewrite !append_assoc in H. apply (f_equal unescape) in H.
    rewrite !unescape_escape in H. injection H as -> H.
    destruct (IH _ _ _ H) as [-> ->]. split; reflexivity.
Qed.

Lemma QuoteJSONString_inj (s1 s2 r1 r2 : string) :
  QuoteJSONString s1 +:+ r1 = QuoteJSONString s2 +:+ r2 -> s1 = s2 /\ r1 = r2.
Proof.
  unfold QuoteJSONString. flatten. intros H. injection H as H.
  apply escapeAll_inj, H.
Qed.

Lemma member_inj (kv1 kv2 : string * string) (r1 r2 : string) :
  member kv1 +:+ r1 = member kv2 +:+ r2 -> kv1 = kv2 /\ r1 = r2.
Proof.
  destruct kv1 as [k1 v1], kv2 as [k2 v2]. unfold member. cbn [fst snd].
  rewrite !append_assoc. intros H.
  apply QuoteJSONString_inj in H as [-> H].
  rewrite !append_cons, !append_nil in H. injection H as H.
  flatten_in H. apply escapeAll_inj in H as [-> ->]. split; reflexivity.
Qed.

Lemma append_empty_r (a : string) : a +:+ EmptyString = a.
Proof.
  induction a as [|x a IH]; [reflexivity|]. rewrite append_cons, IH. reflexivity.
Qed.

Lemma members_cons (kv : string * string) (rest : list (string * string)) :
  members (kv :: rest)
  = member kv +:+ match rest with [] => EmptyString | _ => "," +:+ members rest end.
Proof.
  destruct rest; cbn [members]; [|reflexivity].
  rewrite append_empty_r. reflexivity.
Qed.

Lemma member_head (kv : string * string) :
  exists m, member kv = String dquote m.
Proof. unfold member, QuoteJSONString. flatten. eexists. reflexivity. Qed.

Lemma members_inj (o1 : list (string * string)) : forall o2 r1 r2,
  members o1 +:+ String "}" r1 = members o2 +:+ String "}" r2 ->
  o1 = o2 /\ r1 = r2.
Proof.
  induction o1 as [|kv1 o1 IH]; intros [|kv2 o2] r1 r2.
  - cbn [members]. rewrite !append_nil. intros H. injection H as ->.
    split; reflexivity.
  - rewrite members_cons. destruct (member_head kv2) as [m ->].
    cbn [members]. flatten. discriminate.
  - rewrite members_cons. destruct (member_head kv1) as [m ->].
    cbn [members]. flatten. discriminate.
  - rewrite !members_cons, !append_assoc. intros H.
    apply member_inj in H as [-> H].
    destruct o1 as [|kv1' o1], o2 as [|kv2' o2]; flatten_in H.
    + injection H as ->. split; reflexivity.
    + discriminate H.
    + discriminate H.
    + injection H as H.
      destruct (IH (kv2' :: o2) _ _ H) as [E1 E2].
      rewrite E1, E2. split; reflexivity.
Qed.

Lemma JSON_stringify_object_inj (o1 o2 : list (string * string)) :
  JSON_stringify_object o1 = JSON_stringify_object o2 -> o1 = o2.
Proof.
  unfold JSON_stringify_object. flatten. intros H. injection H as H.
  apply members_inj in H. tauto.
Qed.

Lemma sameLine_iff productId' options' item :
  sameLine productId' options' item <->
  productId item = productId' /\ options item = options'.
Proof.
  unfold sameLine. split; intros [H1 H2]; split; try assumption.
  - apply JSON_stringify_object_inj, H2.
  - rewrite H2. reflexivity.
Qed.

(** [addToCart] when a line matches and when none does. *)
Lemma addToCart_existing productId' quantity' options' st i item :
  getCart st !! i = Some item ->
  productId item = productId' -> options item = options' ->
  (forall j other, (j < i)%nat -> getCart st !! j = Some other ->
     ~ (productId other = productId' /\ options other = options')) ->
  getCart (addToCart productId' quantity' options' st)
  = alter (addQuantity quantity') i (getCart st).
Proof.
  intros Hi Hp Ho Hfirst. unfold addToCart.
  assert (Hfind : list_find (sameLine productId' options') (getCart st)
                  = Some (i, item)).
  { apply list_find_Some. split; [exact Hi|]. split.
    - apply sameLine_iff. split; assumption.
    - intros j other Hj Hlt Hsame. apply sameLine_iff in Hsame.
      exact (Hfirst j other Hlt Hj Hsame). }
  rewrite Hfind. apply getCart_saveCart.
Qed.

Lemma addToCart_new productId' quantity' options' st :
  (forall item, item ∈ getCart st ->
     ~ (productId item = productId' /\ options item = options')) ->
  getCart (addToCart productId' quantity' options' st)
  = getCart st ++ [{| productId := productId'; quantity := quantity';
                      options := options' |}].
Proof.
  intros Hnone. unfold addToCart.
  assert (Hfind : list_find (sameLine productId' options') (getCart st) = None).
  { apply list_find_None, Forall_forall. intros item Hin Hsame.
    apply sameLine_iff in Hsame. exact (Hnone item Hin Hsame). }
  rewrite Hfind. apply getCart_saveCart.
Qed.

(** C4 as stated fails: a line whose options have the same entries in
    another key order is not taken as a match.  With one TrailX in the cart
    chosen as colour then size, adding a TrailX chosen as size then colour
    appends a second line instead of raising the quantity to 2. *)
Lemma addToCart_key_order_counterexample :
  ~ (forall st productId' quantity' options' i item,
       getCart st !! i = Some item ->
       productId item = productId' -> options item ≡ₚ options' ->
       (forall j other, (j < i)%nat -> getCart st !! j = Some other ->
          ~ (productId other = productId' /\ options other ≡ₚ options')) ->
       getCart (addToCart productId' quantity' options' st)
       = alter (addQuantity quantity') i (getCart st)).
Proof.
  intros H.
  specialize (H (cartOf [{| productId := "m1"; quantity := 1;
                            options := [("colour", "черный"); ("size", "M")]%string |}])
                "m1"%string 1 [("size", "M"); ("colour", "черный")]%string 0%nat
                {| productId := "m1"; quantity := 1;
                   options := [("colour", "черный"); ("size", "M")]%string |}
                eq_refl eq_refl (perm_swap _ _ _)).
  assert (Hlen : length (getCart (addToCart "m1" 1
                   [("size", "M"); ("colour", "черный")]%string
                   (cartOf [{| productId := "m1"; quantity := 1;
                       options := [("colour", "черный"); ("size", "M")]%string |}])))
                 = 2%nat) by (vm_compute; reflexivity).
  rewrite H in Hlen; [discriminate Hlen|].
  intros j other Hj. lia.
Qed.

(** C4, amended.  [addToCart] raises by [quantity] the quantity of the
    first line that has the same product id and whose options have the
    same keys with the same values in the same order (this is what equal
    JSON texts of the two options objects amount to), and leaves the other
    lines as they are; when no line is such, it appends a new line at the
    end.  So on an empty cart, adding one and then two of a product in
    colour black gives one line with quantity 3, and adding one in colour
    red afterwards gives a second line. *)
Theorem addToCart_merges_equal_ordered_options
    (productId' : string) (quantity' : Z) (options' : list (string * string))
    (st : localStorage) :
  (forall i item,
     getCart st !! i = Some item ->
     productId item = productId' -> options item = options' ->
     (forall j other, (j < i)%nat -> getCart st !! j = Some other ->
        ~ (productId other = productId' /\ options other = options')) ->
     getCart (addToCart productId' quantity' options' st)
     = alter (addQuantity quantity') i (getCart st)) /\
  ((forall item, item ∈ getCart st ->
      ~ (productId item = productId' /\ options item = options')) ->
   getCart (addToCart productId' quantity' options' st)
   = getCart st ++ [{| productId := productId'; quantity := quantity';
                       options := options' |}]) /\
  (getCart st = [] ->
   getCart (addToCart productId' 2 [("colour", "black")]%string
              (addToCart productId' 1 [("colour", "black")]%string st))
   = [{| productId := productId'; quantity := 3;
         options := [("colour", "black")]%string |}] /\
   getCart (addToCart productId' 1 [("colour", "red")]%string
              (addToCart productId' 2 [("colour", "black")]%string
                 (addToCart productId' 1 [("colour", "black")]%string st)))
   = [{| productId := productId'; quantity := 3;
         options := [("colour", "black")]%string |};
      {| productId := productId'; quantity := 1;
         options := [("colour", "red")]%string |}]).
Proof.
  split; [|split].
  - intros i item. apply addToCart_existing.
  - apply addToCart_new.
  - intros Hempty.
    assert (H1 : getCart (addToCart productId' 1 [("colour", "black")]%string st)
                 = [{| productId := productId'; quantity := 1;
                       options := [("colour", "black")]%string |}]).
    { rewrite addToCart_new; rewrite Hempty; [reflexivity|].
      intros item Hin. inversion Hin. }
    assert (H2 : getCart (addToCart productId' 2 [("colour", "black")]%string
                   (addToCart productId' 1 [("colour", "black")]%string st))
                 = [{| productId := productId'; quantity := 3;
                       options := [("colour", "black")]%string |}]).
    { rewrite (addToCart_existing _ _ _ _ 0%nat
                 {| productId := productId'; quantity := 1;
                    options := [("colour", "black")]%string |});
        rewrite ?H1; try reflexivity.
      intros j other Hj. lia. }
    split; [exact H2|].
    rewrite addToCart_new; rewrite H2; [reflexivity|].
    intros item Hin [_ Hopts].
    apply list_elem_of_singleton in Hin. subst item. discriminate Hopts.
Qed.

Lemma addToCart_merges_equal_ordered_options_witness :
  getCart (addToCart "c1" 2 [("size", "M")]%string
             (cartOf [oneUnit "m1";
                      {| productId := "c1"; quantity := 1;
                         options := [("size", "M")]%string |}]))
  = alter (addQuantity 2) 1%nat
      [oneUnit "m1";
       {| productId := "c1"; quantity := 1; options := [("size", "M")]%string |}] /\
  getCart (addToCart "c1" 2 [("size", "L")]%string (cartOf [oneUnit "m1"]))
  = [oneUnit "m1"] ++
    [{| productId := "c1"; quantity := 2; options := [("size", "L")]%string |}] /\
  getCart (addToCart "m1" 2 [("colour", "black")]%string
             (addToCart "m1" 1 [("colour", "black")]%string emptyStorage))
  = [{| productId := "m1"; quantity := 3;
        options := [("colour", "black")]%string |}] /\
  getCart (addToCart "m1" 1 [("colour", "red")]%string
             (addToCart "m1" 2 [("colour", "black")]%string
                (addToCart "m1" 1 [("colour", "black")]%string emptyStorage)))
  = [{| productId := "m1"; quantity := 3;
        options := [("colour", "black")]%string |};
     {| productId := "m1"; quantity := 1;
        options := [("colour", "red")]%string |}].
Proof.
  split; [|split].
  - apply (proj1 (addToCart_merges_equal_ordered_options
                    "c1" 2 [("size", "M")]%string
                    (cartOf [oneUnit "m1";
                             {| productId := "c1"; quantity := 1;
                                options := [("size", "M")]%string |}]))
             1%nat
             {| productId := "c1"; quantity := 1;
                options := [("size", "M")]%string |});
      try reflexivity.
    intros j other Hj Hlook [Hid _].
    destruct j as [|j]; [|lia].
    injection Hlook as <-. discriminate Hid.
  - apply (proj1 (proj2 (addToCart_merges_equal_ordered_options
                    "c1" 2 [("size", "L")]%string (cartOf [oneUnit "m1"])))).
    intros item Hin [Hid _].
    apply list_elem_of_singleton in Hin. subst item. discriminate Hid.
  - apply (proj2 (proj2 (addToCart_merges_equal_ordered_options
                           "m1" 1 [] emptyStorage))).
    reflexivity.
Defined.

(* ------------------------------------------------------------------ *)
(** ** Session and subscriber store *)

Lemma subscriberList_after (st : localStorage) (l : list string) :
  subscriberList (setItem SUBSCRIBERS_KEY (JSON_stringify (PList l)) st) l.
Proof. reflexivity. Qed.

Lemma subscribeEmail_fresh email st l :
  subscriberList st l -> email <> EmptyString -> email ∉ l ->
  subscribeEmail email st
  = Normal (setItem SUBSCRIBERS_KEY (JSON_stringify (PList (l ++ [email]))) st).
Proof.
  intros Hl Hne Hnew. unfold subscribeEmail, subscriberList in *. rewrite Hl.
  cbn [JSON_parse mbind completion_bind].
  apply String.eqb_neq in Hne. rewrite Hne.
  cbn [includes mbind completion_bind].
  rewrite bool_decide_eq_false_2 by exact Hnew. reflexivity.
Qed.

Lemma subscribeEmail_skip email st l :
  subscriberList st l -> email = EmptyString \/ email ∈ l ->
  subscribeEmail email st = Normal st.
Proof.
  intros Hl Hskip. unfold subscribeEmail, subscriberList in *. rewrite Hl.
  cbn [JSON_parse mbind completion_bind].
  destruct (String.eqb_spec email EmptyString) as [|Hne]; [reflexivity|].
  destruct Hskip as [|Hin]; [contradiction|].
  cbn [includes mbind completion_bind].
  rewrite bool_decide_eq_true_2 by exact Hin. reflexivity.
Qed.

Lemma count_occ_fresh (email : string) (l : list string) :
  email ∉ l -> count_occ string_dec (l ++ [email]) email = 1%nat.
Proof.
  intros Hnew. rewrite count_occ_app.
  replace (count_occ string_dec l email) with 0%nat.
  - simpl. destruct (string_dec email email); [reflexivity | contradiction].
  - symmetry. apply count_occ_not_In. rewrite <- list_elem_of_In. exact Hnew.
Qed.

(** C9. [subscribeEmail] on a stored subscriber list [l].  A non-empty
    email that is not in [l], compared as an exact string, is appended and
    the list written back; an empty email or one already in [l] leaves the
    store as it is.  A second call with the same email changes nothing, and
    when [l] has no repeated entry the list after the two calls has none
    either and holds a non-empty email exactly once. *)
Theorem subscribeEmail_spec (email : string) (st : localStorage) (l : list string) :
  subscriberList st l ->
  (email <> EmptyString -> email ∉ l ->
     subscribeEmail email st
     = Normal (setItem SUBSCRIBERS_KEY (JSON_stringify (PList (l ++ [email]))) st)) /\
  (email = EmptyString \/ email ∈ l -> subscribeEmail email st = Normal st) /\
  (exists st' l',
     subscribeEmail email st = Normal st' /\
     subscribeEmail email st' = Normal st' /\
     subscriberList st' l' /\
     (NoDup l -> NoDup l') /\
     (NoDup l -> email <> EmptyString -> count_occ string_dec l' email = 1%nat)).
Proof.
  intros Hl. split; [|split].
  - apply subscribeEmail_fresh, Hl.
  - apply subscribeEmail_skip, Hl.
  - destruct (String.eqb_spec email EmptyString) as [Hempty|Hne].
    + exists st, l. rewrite (subscribeEmail_skip email st l Hl (or_introl Hempty)).
      split; [reflexivity|]. split; [reflexivity|]. split; [exact Hl|].
      split; [tauto|]. intros _ Hne. contradiction.
    + destruct (decide (email ∈ l)) as [Hin|Hnew].
      * exists st, l. rewrite (subscribeEmail_skip email st l Hl (or_intror Hin)).
        split; [reflexivity|]. split; [reflexivity|]. split; [exact Hl|].
        split; [tauto|]. intros Hnodup _.
        apply NoDup_ListNoDup in Hnodup.
        apply (proj1 (NoDup_count_occ' string_dec l) Hnodup).
        apply list_elem_of_In, Hin.
      * exists (setItem SUBSCRIBERS_KEY (JSON_stringify (PList (l ++ [email]))) st),
               (l ++ [email]).
        split; [apply (subscribeEmail_fresh email st l Hl Hne Hnew)|].
        split; [|split; [reflexivity|split]].
        -- apply (subscribeEmail_skip email _ (l ++ [email])); [reflexivity|].
           right. apply elem_of_app. right. apply list_elem_of_singleton. reflexivity.
        -- intros Hnodup. apply NoDup_app. split; [exact Hnodup|].
           split; [|apply NoDup_singleton].
           intros x Hx Hx'. apply list_elem_of_singleton in Hx'. subst x.
           contradiction.
        -- intros _ _. apply count_occ_fresh, Hnew.
Qed.

Lemma subscribeEmail_spec_witness :
  subscribeEmail "rider@example.org" emptyStorage
  = Normal (setItem SUBSCRIBERS_KEY
              (JSON_stringify (PList ([] ++ ["rider@example.org"%string])))
              emptyStorage) /\
  subscribeEmail "rider@example.org"
    (setItem SUBSCRIBERS_KEY (JSON_stringify (PList ["rider@example.org"%string]))
       emptyStorage)
  = Normal (setItem SUBSCRIBERS_KEY
              (JSON_stringify (PList ["rider@example.org"%string])) emptyStorage) /\
  subscribeEmail "Rider@example.org"
    (setItem SUBSCRIBERS_KEY (JSON_stringify (PList ["rider@example.org"%string]))
       emptyStorage)
  = Normal (setItem SUBSCRIBERS_KEY
              (JSON_stringify
                 (PList (["rider@example.org"%string] ++ ["Rider@example.org"%string])))
              (setItem SUBSCRIBERS_KEY
                 (JSON_stringify (PList ["rider@example.org"%string])) emptyStorage)).
Proof.
  split; [|split].
  - apply (proj1 (subscribeEmail_spec "rider@example.org" emptyStorage []
                    eq_refl)).
    + discriminate.
    + apply not_elem_of_nil.
  - apply (proj1 (proj2 (subscribeEmail_spec "rider@example.org"
             (setItem SUBSCRIBERS_KEY
                (JSON_stringify (PList ["rider@example.org"%string])) emptyStorage)
             ["rider@example.org"%string] eq_refl))).
    right. apply list_elem_of_singleton. reflexivity.
  - apply (proj1 (subscribeEmail_spec "Rider@example.org"
             (setItem SUBSCRIBERS_KEY
                (JSON_stringify (PList ["rider@example.org"%string])) emptyStorage)
             ["rider@example.org"%string] eq_refl)).
    + discriminate.
    + intros Hin. apply list_elem_of_singleton in Hin. discriminate Hin.
Defined.

(** The readers that guard their parse recover from a malformed record. *)
Lemma getCart_malformed st : getCart (put CART_KEY (Some Malformed) st) = [].
Proof. reflexivity. Qed.

Lemma getCurrentUser_malformed st :
  getCurrentUser (put USER_KEY (Some Malformed) st) = JNull.
Proof. reflexivity. Qed.

(** C8. [subscribeEmail] lets an error reach its caller.  When the
    subscriber record holds a text that is not JSON, the unguarded
    [JSON.parse] throws a SyntaxError for every email; when it holds JSON
    that is not a list (here an empty object), a non-empty email makes
    [list.includes] throw a TypeError. *)
Theorem subscribeEmail_throws_on_malformed_record :
  (forall email st,
     subscribeEmail email (put SUBSCRIBERS_KEY (Some Malformed) st)
     = Throw SyntaxError) /\
  (forall st,
     subscribeEmail "rider@example.org"
       (put SUBSCRIBERS_KEY (Some (Encoded (PObj []))) st)
     = Throw TypeError).
Proof. split; reflexivity. Qed.

(* ------------------------------------------------------------------ *)
(** ** Catalog store *)

Lemma findProduct_cons (p : Product.t) (catalog : list Product.t) (id : string) :
  findProduct (p :: catalog) id
  = if String.eqb (Product.id p) id then Some p else findProduct catalog id.
Proof. reflexivity. Qed.

Lemma findProduct_by_own_id (catalog : list Product.t) :
  NoDup (map Product.id catalog) ->
  forall p, p ∈ catalog -> findProduct catalog (Product.id p) = Some p.
Proof.
  induction catalog as [|x catalog IH]; intros Hnodup p Hin.
  - inversion Hin.
  - rewrite findProduct_cons. cbn [map] in Hnodup.
    apply NoDup_cons in Hnodup as [Hx Hnodup].
    apply elem_of_cons in Hin as [->|Hin]; [rewrite String.eqb_refl; reflexivity|].
    destruct (String.eqb_spec (Product.id x) (Product.id p)) as [Heq|_].
    + exfalso. apply Hx. rewrite Heq. apply list_elem_of_fmap_2, Hin.
    + apply IH; assumption.
Qed.

Lemma products_ids_distinct : NoDup (map Product.id products).
Proof. apply (bool_decide_unpack _). vm_compute. exact I. Qed.

Lemma categories_ids_distinct : NoDup (map Category.id categories).
Proof. apply (bool_decide_unpack _). vm_compute. exact I. Qed.

(** X1. [findProduct] returns a product of the catalog that carries the
    requested id, and returns nothing exactly when no product carries it;
    when the ids of the catalog are pairwise distinct, every product is
    found by its own id. *)
Theorem findProduct_lookup (catalog : list Product.t) (id : string) :
  (forall p, findProduct catalog id = Some p -> Product.id p = id /\ p ∈ catalog) /\
  (findProduct catalog id = None <-> forall p, p ∈ catalog -> Product.id p <> id) /\
  (NoDup (map Product.id catalog) ->
   forall p, p ∈ catalog -> findProduct catalog (Product.id p) = Some p).
Proof.
  split; [|split].
  - intros p H. apply List.find_some in H as [Hin Heq].
    apply String.eqb_eq in Heq. split; [exact Heq | apply list_elem_of_In, Hin].
  - split.
    + intros H p Hin Heq. apply list_elem_of_In in Hin.
      apply (List.find_none _ _ H) in Hin.
      apply String.eqb_neq in Hin. contradiction.
    + intros H. destruct (findProduct catalog id) as [p|] eqn:Hfind; [|reflexivity].
      apply List.find_some in Hfind as [Hin Heq]. apply String.eqb_eq in Heq.
      exfalso. apply (H p); [apply list_elem_of_In, Hin | exact Heq].
  - apply findProduct_by_own_id.
Qed.

Lemma findProduct_lookup_witness :
  (exists p, findProduct products "foot1" = Some p /\
             Product.id p = "foot1"%string /\ p ∈ products) /\
  findProduct products "tandem" = None /\
  Forall (fun p => findProduct products (Product.id p) = Some p) products.
Proof.
  split; [|split].
  - destruct (findProduct products "foot1") as [p|] eqn:Hfind; [|discriminate Hfind].
    exists p. split; [reflexivity|].
    apply (proj1 (findProduct_lookup products "foot1") p Hfind).
  - apply (proj1 (proj2 (findProduct_lookup products "tandem"))).
    intros p Hin Heq.
    assert (Hall : Forall (fun p => Product.id p <> "tandem"%string) products)
      by (repeat constructor; discriminate).
    rewrite Forall_forall in Hall. exact (Hall p Hin Heq).
  - apply Forall_forall.
    apply (proj2 (proj2 (findProduct_lookup products "m1"))).
    exact products_ids_distinct.
Defined.

(** X2. The shop's data is closed under its references: product ids and
    category ids are pairwise distinct, the category of every product is a
    category that [findCategory] finds, and the parent of every category
    that has one is a top-level category. *)
Theorem catalog_references_resolve :
  NoDup (map Product.id products) /\
  NoDup (map Category.id categories) /\
  Forall (fun p => exists c, findCategory categories (Product.category p) = Some c
                             /\ Category.id c = Product.category p) products /\
  Forall (fun c => match Category.parent c with
                   | None => True
                   | Some q => exists c', findCategory categories q = Some c'
                                          /\ Category.parent c' = None
                   end) categories.
Proof.
  split; [|split; [|split]].
  - exact products_ids_distinct.
  - exact categories_ids_distinct.
  - repeat constructor; eexists; split; reflexivity.
  - repeat constructor; eexists; split; reflexivity.
Qed.

(** Membership in the boolean filters used by the pages. *)
Lemma elem_of_List_filter {A} (f : A -> bool) (l : list A) (x : A) :
  x ∈ List.filter f l <-> x ∈ l /\ f x = true.
Proof. rewrite !list_elem_of_In. apply List.filter_In. Qed.

Lemma NoDup_map_same {A B} (g : A -> B) (l : list A) (x y : A) :
  NoDup (map g l) -> x ∈ l -> y ∈ l -> g x = g y -> x = y.
Proof.
  intros Hnodup Hx Hy Heq.
  apply list_elem_of_lookup in Hx as [i Hi]. apply list_elem_of_lookup in Hy as [j Hj].
  assert (i = j) as ->.
  { apply (NoDup_lookup (map g l) i j (g x) Hnodup).
    - apply (list_lookup_fmap_Some_2 g), Hi.
    - rewrite Heq. apply (list_lookup_fmap_Some_2 g), Hj. }
  congruence.
Qed.

Lemma NoDup_map_List_filter {A B} (g : A -> B) (f : A -> bool) (l : list A) :
  NoDup (map g l) -> NoDup (map g (List.filter f l)).
Proof.
  induction l as [|x l IH]; intros Hnodup; [exact Hnodup|].
  cbn [map] in Hnodup. apply NoDup_cons in Hnodup as [Hx Hnodup].
  cbn [List.filter]. destruct (f x); [|apply IH, Hnodup].
  cbn [map]. apply NoDup_cons. split; [|apply IH, Hnodup].
  intros Hin. apply Hx.
  apply (list_elem_of_fmap g) in Hin as [y [Hy Hin]].
  apply elem_of_List_filter in Hin as [Hin _].
  rewrite Hy. apply (list_elem_of_fmap_2 g), Hin.
Qed.

Lemma sectionProducts_category cats catalog c p :
  p ∈ sectionProducts cats catalog c ->
  (Category.id c = "bicycles"%string /\
   exists sc, sc ∈ cats /\ Category.parent sc = Some "bicycles"%string /\
              Category.id sc = Product.category p) \/
  (Category.id c <> "bicycles"%string /\ Product.category p = Category.id c).
Proof.
  unfold sectionProducts.
  destruct (String.eqb_spec (Category.id c) "bicycles") as [Hb|Hb]; intros Hin;
    apply elem_of_List_filter in Hin as [_ Hin].
  - left. split; [exact Hb|].
    apply bool_decide_eq_true in Hin.
    apply (list_elem_of_fmap Category.id) in Hin as [sc [Hid Hsc]].
    apply elem_of_List_filter in Hsc as [Hsc Hparent].
    apply strictEq_true in Hparent. exists sc. auto.
  - right. split; [exact Hb|]. apply String.eqb_eq, Hin.
Qed.

(** X3. In the default catalog view no product is listed under two
    sections, as long as category ids are pairwise distinct: a product in
    the section at one position is in no section at another position. *)
Theorem catalogSections_disjoint (cats : list Category.t) (catalog : list Product.t) :
  NoDup (map Category.id cats) ->
  forall i j c1 items1 c2 items2 p,
    catalogSections cats catalog !! i = Some (c1, items1) ->
    catalogSections cats catalog !! j = Some (c2, items2) ->
    i <> j -> p ∈ items1 -> p ∉ items2.
Proof.
  intros Hnodup i j c1 items1 c2 items2 p Hi Hj Hij H1 H2.
  unfold catalogSections in Hi, Hj.
  apply list_lookup_fmap_Some in Hi as [c1' [E1 Hi]].
  apply list_lookup_fmap_Some in Hj as [c2' [E2 Hj]].
  injection E1 as <- ->. injection E2 as <- ->.
  assert (Hc1 : c1 ∈ cats /\ isTopLevel c1 = true)
    by (apply elem_of_List_filter, list_elem_of_lookup; eauto).
  assert (Hc2 : c2 ∈ cats /\ isTopLevel c2 = true)
    by (apply elem_of_List_filter, list_elem_of_lookup; eauto).
  destruct Hc1 as [Hc1 Ht1], Hc2 as [Hc2 Ht2].
  assert (Heq : Category.id c1 = Category.id c2).
  { apply sectionProducts_category in H1. apply sectionProducts_category in H2.
    destruct H1 as [[Hb1 [sc1 [Hsc1 [Hp1 Hid1]]]] | [Hb1 Hcat1]],
             H2 as [[Hb2 [sc2 [Hsc2 [Hp2 Hid2]]]] | [Hb2 Hcat2]].
    - congruence.
    - exfalso.
      assert (sc1 = c2)
        by (apply (NoDup_map_same Category.id cats); try assumption; congruence).
      subst sc1. unfold isTopLevel in Ht2. rewrite Hp1 in Ht2. discriminate Ht2.
    - exfalso.
      assert (sc2 = c1)
        by (apply (NoDup_map_same Category.id cats); try assumption; congruence).
      subst sc2. unfold isTopLevel in Ht1. rewrite Hp2 in Ht1. discriminate Ht1.
    - congruence. }
  apply Hij.
  apply (NoDup_lookup (map Category.id (List.filter isTopLevel cats)) i j
           (Category.id c1)).
  - apply NoDup_map_List_filter, Hnodup.
  - apply (list_lookup_fmap_Some_2 Category.id), Hi.
  - rewrite Heq. apply (list_lookup_fmap_Some_2 Category.id), Hj.
Qed.

Lemma catalogSections_disjoint_witness :
  Forall (fun p => p ∉ sectionProducts categories products
                         {| Category.id := "clothing"; Category.name := "Одежда";
                            Category.parent := None |})
    (sectionProducts categories products
       {| Category.id := "bicycles"; Category.name := "Велосипеды";
          Category.parent := None |}).
Proof.
  apply Forall_forall. intros p Hp.
  apply (catalogSections_disjoint categories products categories_ids_distinct
           0%nat 1%nat
           {| Category.id := "bicycles"; Category.name := "Велосипеды";
              Category.parent := None |} _
           {| Category.id := "clothing"; Category.name := "Одежда";
              Category.parent := None |} _ p eq_refl eq_refl);
    [discriminate | exact Hp].
Defined.

(** X4. The two catalog views disagree on the parent category: a product
    filed under a sub-category of "bicycles" is listed in the "bicycles"
    section of the default view, but not among the cards of the category
    view opened for "bicycles". *)
Theorem bicycles_views_disagree (cats : list Category.t) (catalog : list Product.t)
    (p : Product.t) (sc cat : Category.t) :
  p ∈ catalog -> sc ∈ cats ->
  Category.parent sc = Some "bicycles"%string ->
  Product.category p = Category.id sc ->
  Category.id sc <> "bicycles"%string ->
  Category.id cat = "bicycles"%string ->
  p ∈ sectionProducts cats catalog cat /\
  forall items, categoryViewItems cats catalog "bicycles" = Some items -> p ∉ items.
Proof.
  intros Hp Hsc Hparent Hcat Hne Hid. split.
  - unfold sectionProducts. rewrite Hid. cbn [String.eqb Ascii.eqb Bool.eqb].
    apply elem_of_List_filter. split; [exact Hp|].
    apply bool_decide_eq_true. rewrite Hcat.
    apply (list_elem_of_fmap_2 Category.id), elem_of_List_filter.
    split; [exact Hsc | apply strictEq_true, Hparent].
  - intros items Hitems Hin. unfold categoryViewItems in Hitems.
    cbn [String.eqb negb] in Hitems.
    destruct (findCategory cats "bicycles"); [|discriminate Hitems].
    injection Hitems as <-.
    apply elem_of_List_filter in Hin as [_ Hin]. apply String.eqb_eq in Hin.
    congruence.
Qed.

Lemma bicycles_views_disagree_witness :
  Forall (fun p => p ∈ sectionProducts categories products
                         {| Category.id := "bicycles"; Category.name := "Велосипеды";
                            Category.parent := None |})
    (getProductsByCategory products "mountain") /\
  categoryViewItems categories products "bicycles" = Some [].
Proof.
  split; [|reflexivity].
  apply Forall_forall. intros p Hp.
  apply elem_of_List_filter in Hp as [Hp Hcat]. apply String.eqb_eq in Hcat.
  apply (bicycles_views_disagree categories products p
           {| Category.id := "mountain"; Category.name := "Горные";
              Category.parent := Some "bicycles"%string |}
           {| Category.id := "bicycles"; Category.name := "Велосипеды";
              Category.parent := None |});
    try reflexivity; try assumption.
  - apply list_elem_of_In. right. left. reflexivity.
  - discriminate.
Defined.

(* ------------------------------------------------------------------ *)
(** ** Cart operations: badge count, invariants, composition *)

Lemma Zsum_app (l k : list Z) : Zsum (l ++ k) = Zsum l + Zsum k.
Proof. unfold Zsum. induction l as [|x l IH]; cbn [app fold_right]; lia. Qed.

Lemma Zsum_alter {A} (g : A -> Z) (f : A -> A) (l : list A) (i : nat) (x : A) :
  l !! i = Some x -> Zsum (map g (alter f i l)) = Zsum (map g l) - g x + g (f x).
Proof.
  unfold Zsum.
  revert i. induction l as [|y l IH]; intros [|i] Hi; try discriminate Hi.
  - injection Hi as ->. simpl. lia.
  - specialize (IH i Hi). simpl. unfold alter in *. lia.
Qed.

Lemma Zsum_delete {A} (g : A -> Z) (l : list A) (i : nat) (x : A) :
  l !! i = Some x -> Zsum (map g (delete i l)) = Zsum (map g l) - g x.
Proof.
  unfold Zsum.
  revert i. induction l as [|y l IH]; intros [|i] Hi; try discriminate Hi.
  - injection Hi as ->. simpl. lia.
  - specialize (IH i Hi). simpl. unfold delete in *. lia.
Qed.

Lemma fold_left_quantities (cart : list CartLineItem) (n : Z) :
  fold_left (fun sum item => sum + quantity item) cart n
  = n + Zsum (map quantity cart).
Proof.
  unfold Zsum. revert n. induction cart as [|item cart IH]; intros n; simpl; [lia|].
  rewrite IH. lia.
Qed.

Lemma updateCartCount_Zsum st : updateCartCount st = Zsum (map quantity (getCart st)).
Proof. unfold updateCartCount. rewrite fold_left_quantities. lia. Qed.

(** [updateCartItem] by the position of the index and the sign of the
    quantity. *)
Lemma getCart_updateCartItem_set index quantity' st :
  0 <= index < Z.of_nat (length (getCart st)) -> 0 < quantity' ->
  getCart (updateCartItem index quantity' st)
  = alter (setQuantity quantity') (Z.to_nat index) (getCart st).
Proof.
  intros Hi Hq. unfold updateCartItem.
  destruct (Z.leb_spec 0 index); [|lia].
  destruct (Z.ltb_spec index (Z.of_nat (length (getCart st)))); [|lia].
  cbn [andb]. rewrite getCart_saveCart, list_lookup_alter_eq.
  destruct (lookup_lt_is_Some_2 (getCart st) (Z.to_nat index)) as [item ->]; [lia|].
  cbn [fmap option_fmap option_map setQuantity quantity].
  destruct (Z.leb_spec quantity' 0); [lia | reflexivity].
Qed.

Lemma getCart_updateCartItem_drop index quantity' st :
  0 <= index < Z.of_nat (length (getCart st)) -> quantity' <= 0 ->
  getCart (updateCartItem index quantity' st)
  = delete (Z.to_nat index) (getCart st).
Proof.
  intros Hi Hq. unfold updateCartItem.
  destruct (Z.leb_spec 0 index); [|lia].
  destruct (Z.ltb_spec index (Z.of_nat (length (getCart st)))); [|lia].
  cbn [andb]. rewrite getCart_saveCart, list_lookup_alter_eq.
  destruct (lookup_lt_is_Some_2 (getCart st) (Z.to_nat index)) as [item ->]; [lia|].
  cbn [fmap option_fmap option_map setQuantity quantity].
  destruct (Z.leb_spec quantity' 0); [|lia].
  rewrite splice_in_range by (rewrite length_alter; lia).
  apply delete_alter_same.
Qed.

Lemma updateCartItem_outside index quantity' st :
  ~ (0 <= index < Z.of_nat (length (getCart st))) ->
  updateCartItem index quantity' st = st.
Proof.
  intros Hi. unfold updateCartItem.
  destruct (Z.leb_spec 0 index);
    destruct (Z.ltb_spec index (Z.of_nat (length (getCart st))));
    cbn [andb]; try reflexivity. lia.
Qed.

Lemma lookup_in_range {A} (l : list A) (index : Z) (x : A) :
  0 <= index -> l !! Z.to_nat index = Some x -> 0 <= index < Z.of_nat (length l).
Proof. intros H0 Hx. apply lookup_lt_Some in Hx. lia. Qed.

Lemma Zsum_quantity_addToCart productId' quantity' options' st :
  Zsum (map quantity (getCart (addToCart productId' quantity' options' st)))
  = Zsum (map quantity (getCart st)) + quantity'.
Proof.
  unfold addToCart. rewrite getCart_saveCart.
  destruct (list_find (sameLine productId' options') (getCart st))
    as [[i existing]|] eqn:Hfind.
  - apply list_find_Some in Hfind as [Hi _].
    rewrite (Zsum_alter quantity _ _ i existing Hi). cbn [addQuantity quantity]. lia.
  - rewrite map_app, Zsum_app. unfold Zsum. simpl. lia.
Qed.

(** X5. Adding to the cart raises the number shown in the header badge by
    exactly the added quantity, whether the line was merged into an
    existing one or appended. *)
Theorem updateCartCount_addToCart (productId' : string) (quantity' : Z)
    (options' : list (string * string)) (st : localStorage) :
  updateCartCount (addToCart productId' quantity' options' st)
  = updateCartCount st + quantity'.
Proof. rewrite !updateCartCount_Zsum. apply Zsum_quantity_addToCart. Qed.

(** X6. Changing or removing the line at a valid index changes the badge
    count by that line alone: a positive new quantity replaces the line's
    old quantity in the count, and a quantity of zero or less, like
    [removeCartItem], takes the old quantity out of it. *)
Theorem updateCartCount_line_changes (index quantity' : Z) (st : localStorage)
    (item : CartLineItem) :
  0 <= index -> getCart st !! Z.to_nat index = Some item ->
  (0 < quantity' ->
     updateCartCount (updateCartItem index quantity' st)
     = updateCartCount st - quantity item + quantity') /\
  (quantity' <= 0 ->
     updateCartCount (updateCartItem index quantity' st)
     = updateCartCount st - quantity item) /\
  updateCartCount (removeCartItem index st) = updateCartCount st - quantity item.
Proof.
  intros H0 Hitem. pose proof (lookup_in_range _ _ _ H0 Hitem) as Hrange.
  rewrite !updateCartCount_Zsum. split; [|split].
  - intros Hq. rewrite getCart_updateCartItem_set by assumption.
    rewrite (Zsum_alter quantity _ _ _ item Hitem). reflexivity.
  - intros Hq. rewrite getCart_updateCartItem_drop by assumption.
    apply Zsum_delete, Hitem.
  - rewrite removeCartItem_in_range by assumption. apply Zsum_delete, Hitem.
Qed.

Lemma updateCartCount_line_changes_witness :
  updateCartCount (updateCartItem 1 5
     (cartOf [oneUnit "m1"; setQuantity 2 (oneUnit "c1"); oneUnit "r1"]))
  = updateCartCount
      (cartOf [oneUnit "m1"; setQuantity 2 (oneUnit "c1"); oneUnit "r1"]) - 2 + 5 /\
  updateCartCount (updateCartItem 1 0
     (cartOf [oneUnit "m1"; setQuantity 2 (oneUnit "c1"); oneUnit "r1"]))
  = updateCartCount
      (cartOf [oneUnit "m1"; setQuantity 2 (oneUnit "c1"); oneUnit "r1"]) - 2 /\
  updateCartCount (removeCartItem 1
     (cartOf [oneUnit "m1"; setQuantity 2 (oneUnit "c1"); oneUnit "r1"]))
  = updateCartCount
      (cartOf [oneUnit "m1"; setQuantity 2 (oneUnit "c1"); oneUnit "r1"]) - 2.
Proof.
  split; [|split].
  - apply (proj1 (updateCartCount_line_changes 1 5
             (cartOf [oneUnit "m1"; setQuantity 2 (oneUnit "c1"); oneUnit "r1"])
             (setQuantity 2 (oneUnit "c1")) ltac:(lia) eq_refl)). lia.
  - apply (proj1 (proj2 (updateCartCount_line_changes 1 0
             (cartOf [oneUnit "m1"; setQuantity 2 (oneUnit "c1"); oneUnit "r1"])
             (setQuantity 2 (oneUnit "c1")) ltac:(lia) eq_refl))). lia.
  - apply (proj2 (proj2 (updateCartCount_line_changes 1 0
             (cartOf [oneUnit "m1"; setQuantity 2 (oneUnit "c1"); oneUnit "r1"])
             (setQuantity 2 (oneUnit "c1")) ltac:(lia) eq_refl))).
Defined.

Lemma splice_sublist {A} (start deleteCount : Z) (l : list A) :
  splice start deleteCount l `sublist_of` l.
Proof.
  unfold splice.
  set (len := Z.of_nat (length l)).
  set (a := if start <? 0 then Z.max (len + start) 0 else Z.min start len).
  set (c := Z.min (Z.max deleteCount 0) (len - a)).
  assert (Ha : 0 <= a <= len)
    by (subst a len; destruct (Z.ltb_spec start 0); lia).
  assert (Hc : 0 <= c) by (subst c; lia).
  transitivity (take (Z.to_nat a) l ++ drop (Z.to_nat a) l);
    [|rewrite take_drop; reflexivity].
  apply sublist_app; [reflexivity|].
  replace (Z.to_nat (a + c)) with (Z.to_nat a + Z.to_nat c)%nat by lia.
  rewrite <- drop_drop. apply sublist_drop.
Qed.

Lemma getCart_updateCartItem_cases index quantity' st :
  getCart (updateCartItem index quantity' st) = getCart st \/
  (0 < quantity' /\
   getCart (updateCartItem index quantity' st)
   = alter (setQuantity quantity') (Z.to_nat index) (getCart st)) \/
  getCart (updateCartItem index quantity' st)
  = delete (Z.to_nat index) (getCart st).
Proof.
  destruct (decide (0 <= index < Z.of_nat (length (getCart st)))) as [Hin|Hout].
  - destruct (Z_lt_le_dec 0 quantity') as [Hq|Hq].
    + right. left. split; [exact Hq|]. apply getCart_updateCartItem_set; assumption.
    + right. right. apply getCart_updateCartItem_drop; assumption.
  - left. rewrite updateCartItem_outside by exact Hout. reflexivity.
Qed.

Lemma map_lineKey_alter (f : CartLineItem -> CartLineItem) (l : list CartLineItem)
    (i : nat) :
  (forall item, lineKey (f item) = lineKey item) ->
  map lineKey (alter f i l) = map lineKey l.
Proof.
  intros Hf. revert i. induction l as [|x l IH]; intros [|i]; try reflexivity.
  - simpl. rewrite Hf. reflexivity.
  - simpl. f_equal. apply IH.
Qed.

Lemma getCart_addToCart productId' quantity' options' st :
  getCart (addToCart productId' quantity' options' st)
  = match list_find (sameLine productId' options') (getCart st) with
    | Some (i, _) => alter (addQuantity quantity') i (getCart st)
    | None => getCart st ++ [{| productId := productId'; quantity := quantity';
                                options := options' |}]
    end.
Proof.
  unfold addToCart. rewrite getCart_saveCart.
  destruct (list_find _ _) as [[i existing]|]; reflexivity.
Qed.

(** X7. Cart lines stay distinct by product id and JSON text of the
    options.  If no two lines of the cart have the same product id and
    the same options with their keys in the same order, this is still so
    after [addToCart], after [updateCartItem] and after [removeCartItem],
    whatever their arguments.  Lines whose options differ only in the
    order of their keys count as different lines here, as they do for
    [addToCart]. *)
Theorem distinctLines_preserved (productId' : string) (quantity' : Z)
    (options' : list (string * string)) (index : Z) (st : localStorage) :
  distinctLines (getCart st) ->
  distinctLines (getCart (addToCart productId' quantity' options' st)) /\
  distinctLines (getCart (updateCartItem index quantity' st)) /\
  distinctLines (getCart (removeCartItem index st)).
Proof.
  unfold distinctLines. intros Hd. split; [|split].
  - rewrite getCart_addToCart.
    destruct (list_find (sameLine productId' options') (getCart st))
      as [[i existing]|] eqn:Hfind.
    + rewrite map_lineKey_alter; [exact Hd | reflexivity].
    + rewrite map_app. apply NoDup_app. split; [exact Hd|].
      split; [|apply NoDup_singleton].
      intros key Hkey Hnew. apply list_elem_of_singleton in Hnew. subst key.
      apply (list_elem_of_fmap lineKey) in Hkey as [item [Hk Hitem]].
      apply list_find_None in Hfind. rewrite Forall_forall in Hfind.
      apply (Hfind item Hitem). apply sameLine_iff.
      unfold lineKey in Hk. cbn in Hk. injection Hk as -> ->. split; reflexivity.
  - destruct (getCart_updateCartItem_cases index quantity' st)
      as [-> | [[_ ->] | ->]].
    + exact Hd.
    + rewrite map_lineKey_alter; [exact Hd | reflexivity].
    + apply (sublist_NoDup _ _ Hd).
      apply (fmap_sublist lineKey), sublist_delete.
  - unfold removeCartItem. rewrite getCart_saveCart.
    apply (sublist_NoDup _ _ Hd).
    apply (fmap_sublist lineKey), splice_sublist.
Qed.

Lemma distinctLines_preserved_witness :
  distinctLines (getCart (addToCart "m1" 2 [("size", "M")]%string
                   (cartOf [oneUnit "m1"; oneUnit "c1"]))) /\
  distinctLines (getCart (updateCartItem 0 2 (cartOf [oneUnit "m1"; oneUnit "c1"]))) /\
  distinctLines (getCart (removeCartItem 0 (cartOf [oneUnit "m1"; oneUnit "c1"]))).
Proof.
  apply (distinctLines_preserved "m1" 2 [("size", "M")]%string 0
           (cartOf [oneUnit "m1"; oneUnit "c1"])).
  apply (bool_decide_unpack _). vm_compute. exact I.
Defined.

Lemma Forall_of_sublist {A} (P : A -> Prop) (k l : list A) :
  k `sublist_of` l -> Forall P l -> Forall P k.
Proof.
  intros Hsub Hall. apply Forall_forall. intros x Hx.
  rewrite Forall_forall in Hall. apply Hall. eapply elem_of_sublist; eassumption.
Qed.

(** X8. Integer quantities stay positive.  If every line of the cart has
    a positive quantity, this is still so after [addToCart] with a
    positive integer quantity, and after [updateCartItem] and
    [removeCartItem] with any integer index and any integer quantity: a
    line set to an integer of zero or less is removed, never kept.  (A
    quantity that is not a number is not covered.) *)
Theorem positiveQuantities_preserved (productId' : string) (quantity' : Z)
    (options' : list (string * string)) (index newQuantity : Z) (st : localStorage) :
  positiveQuantities (getCart st) ->
  (0 < quantity' ->
     positiveQuantities (getCart (addToCart productId' quantity' options' st))) /\
  positiveQuantities (getCart (updateCartItem index newQuantity st)) /\
  positiveQuantities (getCart (removeCartItem index st)).
Proof.
  unfold positiveQuantities. intros Hpos. split; [|split].
  - intros Hq. rewrite getCart_addToCart.
    destruct (list_find (sameLine productId' options') (getCart st))
      as [[i existing]|].
    + apply Forall_alter; [exact Hpos|].
      intros item _ Hitem. cbn [addQuantity quantity]. lia.
    + apply Forall_app. split; [exact Hpos|].
      constructor; [exact Hq | constructor].
  - destruct (getCart_updateCartItem_cases index newQuantity st)
      as [-> | [[Hq ->] | ->]].
    + exact Hpos.
    + apply Forall_alter; [exact Hpos|]. intros item _ _. exact Hq.
    + apply Forall_delete, Hpos.
  - unfold removeCartItem. rewrite getCart_saveCart.
    apply (Forall_of_sublist _ _ _ (splice_sublist index 1 (getCart st)) Hpos).
Qed.

Lemma positiveQuantities_preserved_witness :
  positiveQuantities (getCart (addToCart "m1" 2 [] (cartOf [oneUnit "m1"; oneUnit "c1"]))) /\
  positiveQuantities (getCart (updateCartItem 1 (-3) (cartOf [oneUnit "m1"; oneUnit "c1"]))) /\
  positiveQuantities (getCart (removeCartItem 1 (cartOf [oneUnit "m1"; oneUnit "c1"]))).
Proof.
  destruct (positiveQuantities_preserved "m1" 2 [] 1 (-3)
              (cartOf [oneUnit "m1"; oneUnit "c1"])) as [Hadd Hrest].
  - repeat constructor.
  - split; [apply Hadd; lia | exact Hrest].
Defined.

Lemma saveCart_saveCart cart1 cart2 st : saveCart cart1 (saveCart cart2 st) = saveCart cart1 st.
Proof. reflexivity. Qed.

Lemma addToCart_saveCart productId' quantity' options' st :
  addToCart productId' quantity' options' st
  = saveCart (getCart (addToCart productId' quantity' options' st)) st.
Proof. reflexivity. Qed.

Lemma sameLine_new productId' quantity' options' :
  sameLine productId' options'
    {| productId := productId'; quantity := quantity'; options := options' |}.
Proof. split; reflexivity. Qed.

Lemma getCart_addToCart_twice productId' q1 q2 options' st :
  getCart (addToCart productId' q2 options' (addToCart productId' q1 options' st))
  = getCart (addToCart productId' (q1 + q2) options' st).
Proof.
  rewrite (getCart_addToCart productId' q2), !(getCart_addToCart productId' _ options' st).
  destruct (list_find (sameLine productId' options') (getCart st))
    as [[i existing]|] eqn:Hfind.
  - assert (Hfind' : list_find (sameLine productId' options')
                       (alter (addQuantity q1) i (getCart st))
                     = Some (i, addQuantity q1 existing)).
    { apply list_find_Some in Hfind as (Hi & Hsame & Hfirst).
      apply list_find_Some. split; [|split].
      - rewrite list_lookup_alter_eq, Hi. reflexivity.
      - exact Hsame.
      - intros j other Hj Hlt. rewrite list_lookup_alter_ne in Hj by lia.
        exact (Hfirst j other Hj Hlt). }
    rewrite Hfind', list_alter_alter_eq.
    apply list_alter_ext; [|reflexivity].
    intros item _. unfold addQuantity. cbn. f_equal. lia.
  - assert (Hfind' : list_find (sameLine productId' options')
                       (getCart st ++ [{| productId := productId'; quantity := q1;
                                          options := options' |}])
                     = Some (length (getCart st),
                             {| productId := productId'; quantity := q1;
                                options := options' |})).
    { apply list_find_Some. split; [|split].
      - rewrite lookup_app_r, Nat.sub_diag by lia. reflexivity.
      - apply sameLine_new.
      - intros j other Hj Hlt. rewrite lookup_app_l in Hj by exact Hlt.
        apply list_find_None in Hfind. rewrite Forall_forall in Hfind.
        apply Hfind. apply list_elem_of_lookup. eauto. }
    rewrite Hfind'.
    replace (length (getCart st)) with (length (getCart st) + 0)%nat by lia.
    rewrite alter_app_r. reflexivity.
Qed.

(** X9. Repeated adds accumulate.  On every cart, adding [q1] and then
    [q2] of the same product with the same options leaves the store in
    the state that a single add of [q1 + q2] gives. *)
Theorem addToCart_accumulates (productId' : string) (q1 q2 : Z)
    (options' : list (string * string)) (st : localStorage) :
  addToCart productId' q2 options' (addToCart productId' q1 options' st)
  = addToCart productId' (q1 + q2) options' st.
Proof.
  rewrite (addToCart_saveCart productId' q2),
          (addToCart_saveCart productId' (q1 + q2)).
  rewrite getCart_addToCart_twice.
  rewrite (addToCart_saveCart productId' q1) at 1.
  apply saveCart_saveCart.
Qed.

(** X10. [removeCartItem] for every integer index.  An index inside the
    cart removes the line at that index; an index at or past the end
    removes nothing; a negative index down to minus the length removes the
    line counted from the end; a smaller index removes the first line. *)
Theorem removeCartItem_every_index (index : Z) (st : localStorage) :
  (0 <= index < Z.of_nat (length (getCart st)) ->
     getCart (removeCartItem index st) = delete (Z.to_nat index) (getCart st)) /\
  (Z.of_nat (length (getCart st)) <= index ->
     getCart (removeCartItem index st) = getCart st) /\
  (- Z.of_nat (length (getCart st)) <= index < 0 ->
     getCart (removeCartItem index st)
     = delete (Z.to_nat (Z.of_nat (length (getCart st)) + index)) (getCart st)) /\
  (index < - Z.of_nat (length (getCart st)) ->
     getCart (removeCartItem index st) = drop 1 (getCart st)).
Proof.
  unfold removeCartItem. rewrite getCart_saveCart.
  split; [|split; [|split]].
  - apply splice_in_range.
  - apply splice_past_end.
  - apply splice_from_end.
  - apply splice_before_start.
Qed.

Lemma removeCartItem_every_index_witness :
  getCart (removeCartItem 1 (cartOf [oneUnit "m1"; oneUnit "c1"; oneUnit "r1"]))
  = [oneUnit "m1"; oneUnit "r1"] /\
  getCart (removeCartItem 3 (cartOf [oneUnit "m1"; oneUnit "c1"; oneUnit "r1"]))
  = [oneUnit "m1"; oneUnit "c1"; oneUnit "r1"] /\
  getCart (removeCartItem (-2) (cartOf [oneUnit "m1"; oneUnit "c1"; oneUnit "r1"]))
  = [oneUnit "m1"; oneUnit "r1"] /\
  getCart (removeCartItem (-7) (cartOf [oneUnit "m1"; oneUnit "c1"; oneUnit "r1"]))
  = [oneUnit "c1"; oneUnit "r1"].
Proof.
  split; [|split; [|split]].
  - apply (proj1 (removeCartItem_every_index 1
             (cartOf [oneUnit "m1"; oneUnit "c1"; oneUnit "r1"]))). simpl. lia.
  - apply (proj1 (proj2 (removeCartItem_every_index 3
             (cartOf [oneUnit "m1"; oneUnit "c1"; oneUnit "r1"])))). simpl. lia.
  - apply (proj1 (proj2 (proj2 (removeCartItem_every_index (-2)
             (cartOf [oneUnit "m1"; oneUnit "c1"; oneUnit "r1"]))))). simpl. lia.
  - apply (proj2 (proj2 (proj2 (removeCartItem_every_index (-7)
             (cartOf [oneUnit "m1"; oneUnit "c1"; oneUnit "r1"]))))). simpl. lia.
Defined.

(** X11. Each operation writes only its own record.  The cart operations
    leave the user and subscriber records as they are, logging in and out
    leaves the cart and subscriber records as they are, and a
    [subscribeEmail] that returns leaves the cart and user records as they
    are. *)
Theorem operations_keep_other_records (productId' : string) (quantity' : Z)
    (options' : list (string * string)) (index : Z) (user : User) (email' : string)
    (st : localStorage) :
  (getItem USER_KEY (addToCart productId' quantity' options' st) = getItem USER_KEY st /\
   getItem SUBSCRIBERS_KEY (addToCart productId' quantity' options' st)
   = getItem SUBSCRIBERS_KEY st) /\
  (getItem USER_KEY (updateCartItem index quantity' st) = getItem USER_KEY st /\
   getItem SUBSCRIBERS_KEY (updateCartItem index quantity' st)
   = getItem SUBSCRIBERS_KEY st) /\
  (getItem USER_KEY (removeCartItem index st) = getItem USER_KEY st /\
   getItem SUBSCRIBERS_KEY (removeCartItem index st) = getItem SUBSCRIBERS_KEY st) /\
  (getItem CART_KEY (setCurrentUser user st) = getItem CART_KEY st /\
   getItem SUBSCRIBERS_KEY (setCurrentUser user st) = getItem SUBSCRIBERS_KEY st) /\
  (getItem CART_KEY (logOutUser st) = getItem CART_KEY st /\
   getItem SUBSCRIBERS_KEY (logOutUser st) = getItem SUBSCRIBERS_KEY st) /\
  (forall st', subscribeEmail email' st = Normal st' ->
     getItem CART_KEY st' = getItem CART_KEY st /\
     getItem USER_KEY st' = getItem USER_KEY st).
Proof.
  split; [split; reflexivity|].
  split.
  { unfold updateCartItem.
    destruct ((0 <=? index) && (index <? Z.of_nat (length (getCart st))));
      split; reflexivity. }
  split; [split; reflexivity|].
  split; [split; reflexivity|].
  split; [split; reflexivity|].
  intros st'. unfold subscribeEmail.
  destruct (JSON_parse _) as [list|e]; cbn [mbind completion_bind];
    [|discriminate].
  destruct (String.eqb email' EmptyString);
    [intros H; injection H as <-; split; reflexivity|].
  destruct (includes list email') as [[|]|e]; cbn [mbind completion_bind negb];
    try discriminate.
  - intros H; injection H as <-; split; reflexivity.
  - destruct (push list email') as [list'|e]; cbn [mbind completion_bind];
      [|discriminate].
    intros H; injection H as <-; split; reflexivity.
Qed.

Lemma operations_keep_other_records_witness :
  getItem CART_KEY
    (setItem SUBSCRIBERS_KEY (JSON_stringify (PList (["rider@example.org"])%string))
       (setCurrentUser someUser (cartOf [oneUnit "m1"])))
  = getItem CART_KEY (setCurrentUser someUser (cartOf [oneUnit "m1"])) /\
  getItem USER_KEY
    (setItem SUBSCRIBERS_KEY (JSON_stringify (PList (["rider@example.org"])%string))
       (setCurrentUser someUser (cartOf [oneUnit "m1"])))
  = getItem USER_KEY (setCurrentUser someUser (cartOf [oneUnit "m1"])).
Proof.
  apply (proj2 (proj2 (proj2 (proj2 (proj2
           (operations_keep_other_records "m1" 1 [] 0 someUser "rider@example.org"
              (setCurrentUser someUser (cartOf [oneUnit "m1"])))))))).
  reflexivity.
Defined.

(* ------------------------------------------------------------------ *)
(** ** Pricing: edge cases and composition with the cart *)

Lemma loop_saveCart catalog cart st :
  loop catalog (saveCart cart st) = fold_left (accumulate catalog) cart (0%Q, 0%float).
Proof. reflexivity. Qed.

Lemma loop_empty catalog st : getCart st = [] -> loop catalog st = (0%Q, 0%float).
Proof. intros H. unfold loop. rewrite H. reflexivity. Qed.

(** X12. Totals of an empty cart.  When the cart is empty (after
    checkout, or with a missing or unreadable cart record) the subtotal
    and the surcharge are 0, yet both "delivery" and "mail" still charge
    300, so the total equals the shipping cost. *)
Theorem empty_cart_totals (catalog : list Product.t) (ship pay : option string)
    (st : localStorage) :
  getCart st = [] ->
  (subtotal (calculateCartTotals catalog ship pay st) == 0)%Q /\
  (ship = Some "delivery"%string \/ ship = Some "mail"%string ->
     shippingCost (calculateCartTotals catalog ship pay st) = 300%Q) /\
  (codSurcharge (calculateCartTotals catalog ship pay st) == 0)%Q /\
  (total (calculateCartTotals catalog ship pay st)
     == shippingCost (calculateCartTotals catalog ship pay st))%Q.
Proof.
  intros Hempty.
  assert (Hsub : (subtotal (calculateCartTotals catalog ship pay st) == 0)%Q).
  { rewrite subtotal_unfold, (loop_empty catalog st Hempty). cbn [fst].
    destruct (truthy (getCurrentUser st)); [vm_compute|]; reflexivity. }
  assert (Hcod : (codSurcharge (calculateCartTotals catalog ship pay st) == 0)%Q).
  { rewrite codSurcharge_unfold. destruct (_ && _); [|reflexivity].
    rewrite Hsub. vm_compute. reflexivity. }
  split; [exact Hsub|]. split; [|split; [exact Hcod|]].
  - rewrite shippingCost_unfold, (loop_empty catalog st Hempty).
    intros [-> | ->]; cbn [strictEq snd].
    + rewrite String.eqb_refl.
      replace (gtb _ SHIPPING_FREE_THRESHOLD) with false; [reflexivity|].
      symmetry. apply gtb_false. rewrite Hsub. vm_compute. discriminate.
    + reflexivity.
  - rewrite total_unfold, Hsub, Hcod. ring.
Qed.

Lemma empty_cart_totals_witness :
  (total (calculateCartTotals products (Some "delivery"%string) (Some "card"%string)
            (checkoutForm_submit
               (setCurrentUser someUser (cartOf [oneUnit "m1"; oneUnit "acc2"]))))
     == 300)%Q /\
  shippingCost (calculateCartTotals products (Some "mail"%string) (Some "cod"%string)
                  (put CART_KEY (Some Malformed) emptyStorage)) = 300%Q.
Proof.
  split.
  - rewrite (proj2 (proj2 (proj2 (empty_cart_totals products
               (Some "delivery"%string) (Some "card"%string)
               (checkoutForm_submit
                  (setCurrentUser someUser (cartOf [oneUnit "m1"; oneUnit "acc2"])))
               eq_refl)))).
    reflexivity.
  - apply (proj1 (proj2 (empty_cart_totals products
             (Some "mail"%string) (Some "cod"%string)
             (put CART_KEY (Some Malformed) emptyStorage) eq_refl))).
    right. reflexivity.
Defined.

Lemma fold_accumulate_known catalog (cart : list CartLineItem) (acc : Q * float) :
  fold_left (accumulate catalog)
    (filter (fun item => is_Some (findProduct catalog (productId item))) cart) acc
  = fold_left (accumulate catalog) cart acc.
Proof.
  revert acc. induction cart as [|item cart IH]; intros acc; [reflexivity|].
  rewrite filter_cons. destruct (decide _) as [Hknown|Hstale].
  - cbn [fold_left]. apply IH.
  - cbn [fold_left]. rewrite IH. f_equal.
    destruct acc as [sub w]. rewrite accumulate_step.
    destruct (findProduct catalog (productId item)) as [p|]; [|reflexivity].
    exfalso. apply Hstale. eexists. reflexivity.
Qed.

(** X13. Lines whose product is no longer in the catalog do not count:
    the totals of a cart equal the totals of the same cart with those
    lines taken out. *)
Theorem stale_lines_do_not_count (catalog : list Product.t)
    (ship pay : option string) (st : localStorage) :
  calculateCartTotals catalog ship pay
    (saveCart (filter (fun item => is_Some (findProduct catalog (productId item)))
                 (getCart st)) st)
  = calculateCartTotals catalog ship pay st.
Proof.
  unfold calculateCartTotals.
  rewrite loop_saveCart, fold_accumulate_known, getCurrentUser_saveCart.
  reflexivity.
Qed.





Lemma Qsum_app (l k : list Q) : (Qsum (l ++ k) == Qsum l + Qsum k)%Q.
Proof.
  induction l as [|x l IH]; simpl; [ring|]. rewrite IH. ring.
Qed.

Lemma Qsum_alter {A} (g : A -> Q) (f : A -> A) (l : list A) (i : nat) (x : A) :
  l !! i = Some x ->
  (Qsum (map g (alter f i l)) == Qsum (map g l) - g x + g (f x))%Q.
Proof.
  unfold Qsum.
  revert i. induction l as [|y l IH]; intros [|i] Hi; try discriminate Hi.
  - injection Hi as ->. simpl. ring.
  - specialize (IH i Hi). simpl. unfold alter in IH. rewrite IH. ring.
Qed.

Lemma lineAmount_addQuantity catalog (item : CartLineItem) (n : Z) :
  (lineAmount catalog (addQuantity n item)
     == lineAmount catalog item
        + lineAmount catalog {| productId := productId item; quantity := n;
                                options := options item |})%Q.
Proof.
  unfold lineAmount. cbn [addQuantity productId quantity].
  destruct (findProduct catalog (productId item)) as [p|]; [|ring].
  rewrite inject_Z_plus. ring.
Qed.

Lemma lineAmount_by_id catalog (item1 item2 : CartLineItem) :
  productId item1 = productId item2 -> quantity item1 = quantity item2 ->
  lineAmount catalog item1 = lineAmount catalog item2.
Proof. intros H1 H2. unfold lineAmount. rewrite H1, H2. reflexivity. Qed.

Lemma Qsum_lineAmount_addToCart catalog productId' quantity' options' st :
  (Qsum (map (lineAmount catalog)
           (getCart (addToCart productId' quantity' options' st)))
     == Qsum (map (lineAmount catalog) (getCart st))
        + lineAmount catalog {| productId := productId'; quantity := quantity';
                                options := options' |})%Q.
Proof.
  rewrite getCart_addToCart.
  destruct (list_find (sameLine productId' options') (getCart st))
    as [[i existing]|] eqn:Hfind.
  - apply list_find_Some in Hfind as (Hi & [Hid _] & _).
    rewrite (Qsum_alter _ _ _ i existing Hi), lineAmount_addQuantity.
    rewrite (lineAmount_by_id catalog
               {| productId := productId existing; quantity := quantity';
                  options := options existing |}
               {| productId := productId'; quantity := quantity';
                  options := options' |} Hid eq_refl).
    ring.
  - rewrite map_app, Qsum_app. simpl. ring.
Qed.

(** X15. What an add costs.  [addToCart] raises the subtotal by the unit
    price of the product (5% off when on sale) times the added quantity,
    less the 2% loyalty discount when a user is logged in, whether the
    line is merged or appended; adding a product that is not in the
    catalog leaves the subtotal as it is. *)
Theorem addToCart_raises_subtotal (catalog : list Product.t)
    (ship pay : option string) (productId' : string) (quantity' : Z)
    (options' : list (string * string)) (st : localStorage) :
  (forall p, findProduct catalog productId' = Some p ->
     (subtotal (calculateCartTotals catalog ship pay
                  (addToCart productId' quantity' options' st))
        == subtotal (calculateCartTotals catalog ship pay st)
           + unitPrice p * inject_Z quantity'
             * (if truthy (getCurrentUser st) then 1 - 0.02 else 1))%Q) /\
  (findProduct catalog productId' = None ->
     (subtotal (calculateCartTotals catalog ship pay
                  (addToCart productId' quantity' options' st))
        == subtotal (calculateCartTotals catalog ship pay st))%Q).
Proof.
  assert (Hgen : (subtotal (calculateCartTotals catalog ship pay
                              (addToCart productId' quantity' options' st))
                    == subtotal (calculateCartTotals catalog ship pay st)
                       + lineAmount catalog
                           {| productId := productId'; quantity := quantity';
                              options := options' |}
                         * (if truthy (getCurrentUser st) then 1 - 0.02 else 1))%Q).
  { rewrite !subtotal_spec. unfold spec_subtotal.
    replace (getCurrentUser (addToCart productId' quantity' options' st))
      with (getCurrentUser st) by reflexivity.
    rewrite Qsum_lineAmount_addToCart. ring. }
  split.
  - intros p Hp. rewrite Hgen. unfold lineAmount. cbn [productId quantity].
    rewrite Hp. reflexivity.
  - intros Hp. rewrite Hgen. unfold lineAmount. cbn [productId quantity].
    rewrite Hp. ring.
Qed.

Lemma addToCart_raises_subtotal_witness :
  (subtotal (calculateCartTotals products None None
               (addToCart "foot1" 2 [("size", "41")]%string
                  (setCurrentUser someUser
                     (cartOf [{| productId := "foot1"; quantity := 1;
                                 options := [("size", "41")]%string |}]))))
     == subtotal (calculateCartTotals products None None
                    (setCurrentUser someUser
                       (cartOf [{| productId := "foot1"; quantity := 1;
                                   options := [("size", "41")]%string |}])))
        + 14896)%Q /\
  (subtotal (calculateCartTotals products None None
               (addToCart "tandem" 2 [] (cartOf [oneUnit "m1"])))
     == subtotal (calculateCartTotals products None None (cartOf [oneUnit "m1"])))%Q.
Proof.
  split.
  - destruct (findProduct products "foot1") as [p|] eqn:Hp; [|discriminate Hp].
    rewrite (proj1 (addToCart_raises_subtotal products None None "foot1" 2
               [("size", "41")]%string
               (setCurrentUser someUser
                  (cartOf [{| productId := "foot1"; quantity := 1;
                              options := [("size", "41")]%string |}])))
               p Hp).
    vm_compute in Hp. injection Hp as <-.
    apply Qplus_comp; [reflexivity|]. vm_compute. reflexivity.
  - apply (proj2 (addToCart_raises_subtotal products None None "tandem" 2 []
                    (cartOf [oneUnit "m1"]))).
    reflexivity.
Defined.

(** X16. Logging in and out.  With the same cart, the subtotal of a
    logged-in user is the logged-out subtotal times [1 - 0.02], whoever
    the user is, and logging out after logging in gives back the
    logged-out totals. *)
Theorem loyalty_discount_follows_login (catalog : list Product.t)
    (ship pay : option string) (user : User) (st : localStorage) :
  (subtotal (calculateCartTotals catalog ship pay (setCurrentUser user st))
     == subtotal (calculateCartTotals catalog ship pay (logOutUser st))
        * (1 - 0.02))%Q /\
  calculateCartTotals catalog ship pay (logOutUser (setCurrentUser user st))
  = calculateCartTotals catalog ship pay (logOutUser st).
Proof.
  split; [|reflexivity].
  rewrite !subtotal_unfold.
  replace (truthy (getCurrentUser (setCurrentUser user st))) with true by reflexivity.
  replace (truthy (getCurrentUser (logOutUser st))) with false by reflexivity.
  replace (loop catalog (setCurrentUser user st)) with (loop catalog (logOutUser st))
    by reflexivity.
  reflexivity.
Qed.

(** X18. Fees and the loyalty discount go one way.  When catalog prices
    and weights and cart quantities are non-negative, the total is never
    below the subtotal, and the subtotal of a logged-in user is never
    above the logged-out subtotal of the same cart. *)
Theorem total_and_discount_bounds (catalog : list Product.t)
    (ship pay : option string) (user : User) (st : localStorage) :
  List.Forall (fun p => (0 <= Product.price p)%Q /\ (0 <= Product.weight p)%Q) catalog ->
  List.Forall (fun item => 0 <= quantity item) (getCart st) ->
  (subtotal (calculateCartTotals catalog ship pay st)
     <= total (calculateCartTotals catalog ship pay st))%Q /\
  (subtotal (calculateCartTotals catalog ship pay (setCurrentUser user st))
     <= subtotal (calculateCartTotals catalog ship pay (logOutUser st)))%Q.
Proof.
  intros Hcat Hcart. split.
  - pose proof (shippingCost_nonneg catalog ship pay st) as Hs.
    pose proof (codSurcharge_nonneg catalog Hcat ship pay st Hcart) as Hc.
    rewrite total_unfold. lra.
  - pose proof (subtotal_nonneg catalog Hcat ship pay (logOutUser st) Hcart) as Hs.
    rewrite !subtotal_unfold in *.
    replace (truthy (getCurrentUser (setCurrentUser user st))) with true by reflexivity.
    replace (truthy (getCurrentUser (logOutUser st))) with false in * by reflexivity.
    replace (loop catalog (setCurrentUser user st)) with (loop catalog (logOutUser st))
      by reflexivity.
    unfold USER_DISCOUNT. lra.
Qed.

Lemma total_and_discount_bounds_witness :
  (subtotal (calculateCartTotals products (Some "mail"%string) (Some "cod"%string)
               (cartOf [oneUnit "foot1"; oneUnit "acc1"]))
     <= total (calculateCartTotals products (Some "mail"%string) (Some "cod"%string)
                 (cartOf [oneUnit "foot1"; oneUnit "acc1"])))%Q /\
  (subtotal (calculateCartTotals products (Some "mail"%string) (Some "cod"%string)
               (setCurrentUser someUser (cartOf [oneUnit "foot1"; oneUnit "acc1"])))
     <= subtotal (calculateCartTotals products (Some "mail"%string) (Some "cod"%string)
                    (logOutUser (cartOf [oneUnit "foot1"; oneUnit "acc1"]))))%Q.
Proof.
  apply (total_and_discount_bounds products (Some "mail"%string) (Some "cod"%string)
           someUser (cartOf [oneUnit "foot1"; oneUnit "acc1"])).
  - repeat constructor; vm_compute; discriminate.
  - repeat constructor; vm_compute; discriminate.
Defined.

(* ------------------------------------------------------------------ *)
(** ** The cart table *)

Lemma cartRow_Some catalog index item r :
  cartRow catalog index item = Some r ->
  dataIndex r = index /\
  findProduct catalog (productId item) = Some (rowProduct r) /\
  rowQuantity r = quantity item /\
  rowPrice r = createProductCard_price (rowProduct r) /\
  rowTotal r = (rowPrice r * inject_Z (quantity item))%Q /\
  rowTotal r = lineAmount catalog item.
Proof.
  unfold cartRow, lineAmount, unitPrice, createProductCard_price, SALE_DISCOUNT.
  destruct (findProduct catalog (productId item)) as [p|]; [|discriminate].
  intros H. injection H as <-. cbn. repeat split; reflexivity.
Qed.

Lemma cartRow_None catalog index item :
  cartRow catalog index item = None -> lineAmount catalog item = 0%Q.
Proof.
  unfold cartRow, lineAmount.
  destruct (findProduct catalog (productId item)); [discriminate | reflexivity].
Qed.

Lemma Qsum_rows catalog (cart : list CartLineItem) : forall h : nat -> nat,
  (Qsum (map rowTotal (omap id (imap (fun i => cartRow catalog (h i)) cart)))
     == Qsum (map (lineAmount catalog) cart))%Q.
Proof.
  induction cart as [|item cart IH]; intros h; [reflexivity|].
  rewrite imap_cons. cbn [omap list_omap map]. unfold id at 1.
  specialize (IH (fun i => h (S i))).
  destruct (cartRow catalog (h 0%nat) item) as [r|] eqn:Hrow.
  - apply cartRow_Some in Hrow as (_ & _ & _ & _ & _ & Htotal).
    cbn [map]. rewrite !Qsum_cons, Htotal.
    apply Qplus_comp; [reflexivity | exact IH].
  - apply cartRow_None in Hrow. rewrite Qsum_cons, Hrow, Qplus_0_l. exact IH.
Qed.

(** X19. The cart table agrees with the stored cart and with the totals.
    Every row carries as data-index the position of a stored line whose
    product, quantity and card price it shows, so [removeCartItem] with
    that index removes this very line; every line whose product is in the
    catalog has a row; and the row totals add up to the subtotal before
    the loyalty discount. *)
Theorem cartRows_match_cart (catalog : list Product.t) (ship pay : option string)
    (st : localStorage) :
  (forall r, r ∈ cartRows catalog st ->
     exists item,
       getCart st !! dataIndex r = Some item /\
       findProduct catalog (productId item) = Some (rowProduct r) /\
       rowQuantity r = quantity item /\
       rowPrice r = createProductCard_price (rowProduct r) /\
       rowTotal r = (rowPrice r * inject_Z (quantity item))%Q /\
       getCart (removeCartItem (Z.of_nat (dataIndex r)) st)
       = delete (dataIndex r) (getCart st)) /\
  (forall i item p,
     getCart st !! i = Some item -> findProduct catalog (productId item) = Some p ->
     exists r, r ∈ cartRows catalog st /\ dataIndex r = i /\ rowProduct r = p) /\
  (Qsum (map rowTotal (cartRows catalog st))
     * (if truthy (getCurrentUser st) then 1 - 0.02 else 1)
     == subtotal (calculateCartTotals catalog ship pay st))%Q.
Proof.
  split; [|split].
  - intros r Hr. unfold cartRows in Hr.
    apply list_elem_of_omap in Hr as [x [Hx Hid]]. unfold id in Hid. subst x.
    apply list_elem_of_lookup in Hx as [i Hi].
    rewrite list_lookup_imap in Hi.
    destruct (getCart st !! i) as [item|] eqn:Hitem; [|discriminate Hi].
    cbn in Hi. injection Hi as Hrow.
    apply cartRow_Some in Hrow as (Hidx & Hp & Hq & Hprice & Htotal & _).
    exists item. rewrite Hidx. repeat (split; [assumption|]).
    rewrite removeCartItem_in_range, Nat2Z.id; [reflexivity|].
    apply lookup_lt_Some in Hitem. lia.
  - intros i item p Hitem Hp.
    destruct (cartRow catalog i item) as [r|] eqn:Hrow.
    + exists r. split.
      * unfold cartRows. apply list_elem_of_omap. exists (Some r).
        split; [|reflexivity].
        apply list_elem_of_lookup. exists i.
        rewrite list_lookup_imap, Hitem. cbn. rewrite Hrow. reflexivity.
      * apply cartRow_Some in Hrow as (Hidx & Hp' & _). split; [exact Hidx|].
        congruence.
    + unfold cartRow in Hrow. rewrite Hp in Hrow. discriminate Hrow.
  - rewrite subtotal_spec. unfold spec_subtotal, cartRows.
    rewrite (Qsum_rows catalog (getCart st) (fun i => i)). reflexivity.
Qed.

Lemma cartRows_match_cart_witness :
  (exists r, r ∈ cartRows products
                   (cartOf [oneUnit "gone"; setQuantity 3 (oneUnit "foot1")]) /\
             dataIndex r = 1%nat /\ (rowTotal r == 22800)%Q) /\
  Forall (fun r => getCart (removeCartItem (Z.of_nat (dataIndex r))
                              (cartOf [oneUnit "gone"; setQuantity 3 (oneUnit "foot1")]))
                   = delete (dataIndex r) [oneUnit "gone"; setQuantity 3 (oneUnit "foot1")])
    (cartRows products (cartOf [oneUnit "gone"; setQuantity 3 (oneUnit "foot1")])).
Proof.
  split.
  - destruct (findProduct products "foot1") as [p|] eqn:Hp; [|discriminate Hp].
    destruct (proj1 (proj2 (cartRows_match_cart products None None
                (cartOf [oneUnit "gone"; setQuantity 3 (oneUnit "foot1")])))
                1%nat (setQuantity 3 (oneUnit "foot1")) p eq_refl Hp)
      as [r (Hr & Hidx & Hprod)].
    exists r. split; [exact Hr|]. split; [exact Hidx|].
    destruct (proj1 (cartRows_match_cart products None None
                (cartOf [oneUnit "gone"; setQuantity 3 (oneUnit "foot1")])) r Hr)
      as [item (Hitem & _ & _ & Hprice & Htotal & _)].
    rewrite Hidx in Hitem. injection Hitem as <-.
    rewrite Htotal, Hprice, Hprod.
    vm_compute in Hp. injection Hp as <-. vm_compute. reflexivity.
  - apply Forall_forall. intros r Hr.
    destruct (proj1 (cartRows_match_cart products None None
                (cartOf [oneUnit "gone"; setQuantity 3 (oneUnit "foot1")])) r Hr)
      as [item (_ & _ & _ & _ & _ & Hremove)].
    exact Hremove.
Defined.

(* ------------------------------------------------------------------ *)
(** ** Session and subscribers: edge behaviour *)

Lemma answered_Some (x : option string) :
  answered x = true <-> exists s, x = Some s /\ s <> EmptyString.
Proof.
  destruct x as [s|]; cbn [answered].
  - rewrite negb_true_iff. split.
    + intros H. exists s. split; [reflexivity|]. apply String.eqb_neq, H.
    + intros [s' [E H]]. injection E as <-. apply String.eqb_neq, H.
  - split; [discriminate|]. intros [s [E _]]. discriminate E.
Qed.

(** X20. The sign-in dialog.  [showAuthModal] logs a user in exactly when
    the first answer is "1" or "2" and both the e-mail and the name are
    answered with a non-empty text, and then stores exactly these two; in
    every other case the store is left as it is.  Entering and registering
    have the same effect, and the cart is never touched. *)
Theorem showAuthModal_effect (action email' name' : option string)
    (st : localStorage) :
  (forall e n,
     action = Some "1"%string \/ action = Some "2"%string ->
     email' = Some e -> name' = Some n -> e <> EmptyString -> n <> EmptyString ->
     showAuthModal action email' name' st
     = setCurrentUser {| email := e; name := n |} st) /\
  ((action <> Some "1"%string /\ action <> Some "2"%string)
   \/ answered email' = false \/ answered name' = false ->
     showAuthModal action email' name' st = st) /\
  showAuthModal (Some "1"%string) email' name' st
  = showAuthModal (Some "2"%string) email' name' st /\
  getCart (showAuthModal action email' name' st) = getCart st.
Proof.
  split; [|split; [|split]].
  - intros e n Haction -> -> He Hn. unfold showAuthModal.
    assert (Ha : answered (Some e) && answered (Some n) = true).
    { apply andb_true_iff. split; apply answered_Some; eauto. }
    rewrite Ha.
    destruct Haction as [-> | ->]; reflexivity.
  - intros Hskip. unfold showAuthModal.
    destruct (strictEq action "1") eqn:H1; [|destruct (strictEq action "2") eqn:H2].
    + destruct Hskip as [[Hne _] | Hskip];
        [apply strictEq_true in H1; contradiction|].
      destruct email' as [e|], name' as [n|]; try reflexivity.
      destruct Hskip as [-> | ->]; rewrite ?andb_false_r; reflexivity.
    + destruct Hskip as [[_ Hne] | Hskip];
        [apply strictEq_true in H2; contradiction|].
      destruct email' as [e|], name' as [n|]; try reflexivity.
      destruct Hskip as [-> | ->]; rewrite ?andb_false_r; reflexivity.
    + reflexivity.
  - reflexivity.
  - unfold showAuthModal.
    destruct (strictEq action "1"); [|destruct (strictEq action "2")];
      try reflexivity;
      destruct email' as [e|], name' as [n|]; try reflexivity;
      destruct (answered (Some e) && answered (Some n)); reflexivity.
Qed.

Lemma showAuthModal_effect_witness :
  showAuthModal (Some "2"%string) (Some "rider@example.org"%string)
    (Some "Rider"%string) (cartOf [oneUnit "m1"])
  = setCurrentUser someUser (cartOf [oneUnit "m1"]) /\
  showAuthModal (Some "1"%string) (Some "rider@example.org"%string) None
    (cartOf [oneUnit "m1"])
  = cartOf [oneUnit "m1"] /\
  showAuthModal None (Some "rider@example.org"%string) (Some "Rider"%string)
    (cartOf [oneUnit "m1"])
  = cartOf [oneUnit "m1"].
Proof.
  split; [|split].
  - apply (proj1 (showAuthModal_effect (Some "2"%string)
             (Some "rider@example.org"%string) (Some "Rider"%string)
             (cartOf [oneUnit "m1"])));
      try reflexivity; try discriminate.
    right. reflexivity.
  - apply (proj1 (proj2 (showAuthModal_effect (Some "1"%string)
             (Some "rider@example.org"%string) None (cartOf [oneUnit "m1"])))).
    right. right. reflexivity.
  - apply (proj1 (proj2 (showAuthModal_effect None
             (Some "rider@example.org"%string) (Some "Rider"%string)
             (cartOf [oneUnit "m1"])))).
    left. split; discriminate.
Defined.

(** X21. Who counts as logged in.  [getCurrentUser] returns either
    [null] or a truthy value, and it returns a truthy value exactly when
    the user record is the JSON text of a truthy value: an object
    written by the sign-in dialog, but also any array, non-zero number,
    non-empty string or [true]. *)
Theorem getCurrentUser_null_or_truthy (st : localStorage) :
  (getCurrentUser st = JNull \/ truthy (getCurrentUser st) = true) /\
  (truthy (getCurrentUser st) = true <->
   exists v, getItem USER_KEY st = Some (Encoded v) /\ truthy v = true
             /\ getCurrentUser st = v).
Proof.
  unfold getCurrentUser.
  destruct (getItem USER_KEY st) as [[| |v]|] eqn:Hrec; cbn.
  - split; [left; reflexivity|]. split; [discriminate|].
    intros [v [E _]]. discriminate E.
  - split; [left; reflexivity|]. split; [discriminate|].
    intros [v [E _]]. discriminate E.
  - destruct (truthy v) eqn:Hv.
    + split; [right; exact Hv|]. split; [|intros _; exact Hv].
      intros _. exists v. auto.
    + split; [left; reflexivity|]. split; [discriminate|].
      intros [v' [E [Hv' _]]]. injection E as <-. congruence.
  - split; [left; reflexivity|]. split; [discriminate|].
    intros [v [E _]]. discriminate E.
Qed.

Lemma getCurrentUser_null_or_truthy_witness :
  truthy (getCurrentUser (put USER_KEY (Some (Encoded (JArr []))) emptyStorage)) = true /\
  (exists v, getItem USER_KEY (setCurrentUser someUser emptyStorage) = Some (Encoded v)
             /\ truthy v = true
             /\ getCurrentUser (setCurrentUser someUser emptyStorage) = v).
Proof.
  split.
  - apply (proj2 (proj2 (getCurrentUser_null_or_truthy
             (put USER_KEY (Some (Encoded (JArr []))) emptyStorage)))).
    exists (JArr []). repeat split.
  - apply (proj1 (proj2 (getCurrentUser_null_or_truthy
             (setCurrentUser someUser emptyStorage)))).
    reflexivity.
Defined.

(** X22. The subscriber list only grows at its end.  On a stored list,
    [subscribeEmail] returns, and the list afterwards starts with the list
    before, is at most one entry longer, and holds nothing but the old
    entries and the given email. *)
Theorem subscribeEmail_only_appends (email' : string) (st : localStorage)
    (l : list string) :
  subscriberList st l ->
  exists st' l',
    subscribeEmail email' st = Normal st' /\
    subscriberList st' l' /\
    l `prefix_of` l' /\
    (length l' <= length l + 1)%nat /\
    (forall x, x ∈ l' -> x ∈ l \/ x = email').
Proof.
  intros Hl.
  destruct (decide (email' = EmptyString \/ email' ∈ l)) as [Hskip|Hnew].
  - exists st, l. rewrite (subscribeEmail_skip email' st l Hl Hskip).
    split; [reflexivity|]. split; [exact Hl|]. split; [reflexivity|].
    split; [lia|]. intros x Hx. left. exact Hx.
  - assert (Hne : email' <> EmptyString) by tauto.
    assert (Hnotin : email' ∉ l) by tauto.
    exists (setItem SUBSCRIBERS_KEY (JSON_stringify (PList (l ++ [email']))) st),
           (l ++ [email']).
    split; [apply (subscribeEmail_fresh email' st l Hl Hne Hnotin)|].
    split; [reflexivity|]. split; [apply prefix_app_r; reflexivity|].
    split; [rewrite length_app; cbn; lia|].
    intros x Hx. apply elem_of_app in Hx as [Hx|Hx]; [left; exact Hx|].
    right. apply list_elem_of_singleton in Hx. exact Hx.
Qed.

Lemma subscribeEmail_only_appends_witness :
  exists st' l',
    subscribeEmail "second@example.org"
      (setItem SUBSCRIBERS_KEY (JSON_stringify (PList ["first@example.org"%string]))
         emptyStorage) = Normal st' /\
    subscriberList st' l' /\
    ["first@example.org"%string] `prefix_of` l' /\
    (length l' <= length ["first@example.org"%string] + 1)%nat /\
    (forall x, x ∈ l' -> x ∈ ["first@example.org"%string]
                         \/ x = "second@example.org"%string).
Proof.
  apply (subscribeEmail_only_appends "second@example.org"
           (setItem SUBSCRIBERS_KEY (JSON_stringify (PList ["first@example.org"%string]))
              emptyStorage)
           ["first@example.org"%string]).
  reflexivity.
Defined.

(** X23. [subscribeEmail] on a record that holds JSON but not a list.  An
    empty email returns without touching the store.  A non-empty email
    returns, again without touching the store, only when the record is a
    JSON string in which the email occurs; in every other case the call
    throws a TypeError. *)
Theorem subscribeEmail_on_other_records (email' : string) (v : parsed string)
    (st : localStorage) :
  getItem SUBSCRIBERS_KEY st = Some (Encoded v) ->
  Array_isArray v = false ->
  (email' = EmptyString -> subscribeEmail email' st = Normal st) /\
  (email' <> EmptyString ->
     (exists s, v = PStr s /\ String.index 0 email' s <> None /\
                subscribeEmail email' st = Normal st) \/
     subscribeEmail email' st = Throw TypeError).
Proof.
  intros Hrec Hv. unfold subscribeEmail. rewrite Hrec.
  cbn [or_else JSON_parse mbind completion_bind].
  split.
  - intros ->. reflexivity.
  - intros Hne. apply String.eqb_neq in Hne. rewrite Hne.
    destruct v as [| b | q | s | fields | l]; try discriminate Hv;
      cbn [includes push mbind completion_bind]; try (right; reflexivity).
    destruct (String.index 0 email' s) as [n|] eqn:Hidx; cbn [negb].
    + left. exists s. rewrite Hidx. split; [reflexivity|].
      split; [discriminate | reflexivity].
    + right. reflexivity.
Qed.

Lemma subscribeEmail_on_other_records_witness :
  subscribeEmail EmptyString (put SUBSCRIBERS_KEY (Some (Encoded PNull)) emptyStorage)
  = Normal (put SUBSCRIBERS_KEY (Some (Encoded PNull)) emptyStorage) /\
  subscribeEmail "rider@example.org"
    (put SUBSCRIBERS_KEY (Some (Encoded (PStr "rider"))) emptyStorage)
  = Throw TypeError.
Proof.
  split.
  - apply (proj1 (subscribeEmail_on_other_records EmptyString PNull
             (put SUBSCRIBERS_KEY (Some (Encoded PNull)) emptyStorage)
             eq_refl eq_refl)).
    reflexivity.
  - destruct (proj2 (subscribeEmail_on_other_records "rider@example.org"
             (PStr "rider")
             (put SUBSCRIBERS_KEY (Some (Encoded (PStr "rider"))) emptyStorage)
             eq_refl eq_refl)) as [[s (Hs & Hidx & _)] | Hthrow].
    + discriminate.
    + injection Hs as <-. exfalso. apply Hidx. reflexivity.
    + exact Hthrow.
Defined.

(* ------------------------------------------------------------------ *)
(** ** The add-to-cart button *)

(** X24. Clicks on the add-to-cart button.  A click never adds a
    quantity of zero: an unreadable or zero quantity field counts as 1,
    any other number, negative ones included, is added as it is, and the
    header badge moves by that amount.  Two clicks with the same colour
    and size selected always merge into one line, whatever the
    quantities. *)
Theorem addToCartBtn_click_effect (product : Product.t) (parsedQty parsedQty' : option Z)
    (colourSelect sizeSelect : option string) (st : localStorage) :
  (parsedQty = None \/ parsedQty = Some 0 ->
     updateCartCount (addToCartBtn_click product parsedQty colourSelect sizeSelect st)
     = updateCartCount st + 1) /\
  (forall n, parsedQty = Some n -> n <> 0 ->
     updateCartCount (addToCartBtn_click product parsedQty colourSelect sizeSelect st)
     = updateCartCount st + n) /\
  updateCartCount (addToCartBtn_click product parsedQty colourSelect sizeSelect st)
  <> updateCartCount st /\
  length (getCart (addToCartBtn_click product parsedQty' colourSelect sizeSelect
                     (addToCartBtn_click product parsedQty colourSelect sizeSelect st)))
  = length (getCart (addToCartBtn_click product parsedQty colourSelect sizeSelect st)).
Proof.
  unfold addToCartBtn_click.
  rewrite !updateCartCount_Zsum, !Zsum_quantity_addToCart.
  split; [|split; [|split]].
  - intros [-> | ->]; reflexivity.
  - intros n -> Hn. destruct (Z.eqb_spec n 0); [contradiction | reflexivity].
  - destruct parsedQty as [n|]; [|lia].
    destruct (Z.eqb_spec n 0); lia.
  - rewrite getCart_addToCart_twice, !getCart_addToCart.
    destruct (list_find _ (getCart st)) as [[i existing]|].
    + rewrite !length_alter. reflexivity.
    + rewrite !length_app. reflexivity.
Qed.

Lemma addToCartBtn_click_effect_witness :
  updateCartCount (addToCartBtn_click (sampleProduct "s1" 1000 1 true) (Some 0)
                     (Some "black"%string) None (cartOf [oneUnit "m1"]))
  = updateCartCount (cartOf [oneUnit "m1"]) + 1 /\
  updateCartCount (addToCartBtn_click (sampleProduct "s1" 1000 1 true) (Some (-4))
                     (Some "black"%string) None (cartOf [oneUnit "m1"]))
  = updateCartCount (cartOf [oneUnit "m1"]) + -4.
Proof.
  split.
  - apply (proj1 (addToCartBtn_click_effect (sampleProduct "s1" 1000 1 true)
             (Some 0) None (Some "black"%string) None (cartOf [oneUnit "m1"]))).
    right. reflexivity.
  - apply (proj1 (proj2 (addToCartBtn_click_effect (sampleProduct "s1" 1000 1 true)
             (Some (-4)) None (Some "black"%string) None (cartOf [oneUnit "m1"])))).
    + reflexivity.
    + discriminate.
Defined.
